(** * douyinLive: the session engine of [douyin.go], embedded in Rocq

    The Go type [DouyinLive] and its methods are translated function by
    function.  The session record is threaded through a small state monad
    whose outcome is either a normal return or a Go panic (nil dereference).
    Everything the session does to the outside world (log lines, dials,
    reads, writes, closes, sleeps, handler calls) is appended to a trace, and
    everything the outside world answers (dial results, write errors, ...)
    is taken from an environment record indexed by call counters.

    External packages are not part of the repository.  Their functions are
    either parameters (protobuf, gzip, regexp: record [Lib]) or, where the
    session's control flow depends on their exact behaviour, small models of
    the published library code (gorilla/websocket's close-error predicates,
    avast/retry-go's [Do] loop), each marked as such. *)

From Stdlib Require Import String Ascii List ZArith Bool Lia.
From Stdlib.Strings Require Import Byte.
Import ListNotations.
Local Open Scope string_scope.
Local Open Scope Z_scope.
Set Warnings "-register-all".

(** ** Go values *)

Definition bytes := list byte.

(** A Go [error] value, by dynamic type.  Only the dynamic types that the
    session can tell apart are distinguished. *)
Inductive error : Type :=
| CloseError (Code : Z) (Text : string)
    (* a pointer to websocket.CloseError *)
| OtherError (msg : string)
    (* any other error value: net errors, websocket.ErrBadHandshake, io.EOF,
       protobuf and gzip errors *)
| Errorf (format : string) (args : list Z) (cause : error)
    (* fmt.Errorf(format, args..., cause) with one %w verb *)
| unrecoverableError (e : error)
    (* retry.unrecoverableError{e}, built by retry.Unrecoverable *)
| RetryError (errorLog : list error).
    (* retry.Error, the slice of errors retry.Do returns *)

(** A transport handle (a pointer to websocket.Conn), named by a number. *)
Definition Conn := nat.

(** http.Response, as far as the session reads it. *)
Record HttpResponse := { StatusCode : Z }.

(** What [Dialer.Dial] returns: [(conn, resp, nil)] on success, and
    [(nil, resp, err)] on failure, where [resp] is nil unless the peer
    answered the handshake. *)
Inductive DialResult :=
| DialOk (c : Conn) (resp : HttpResponse)
| DialErr (resp : option HttpResponse) (err : error).

(** What [Conn.ReadMessage] returns. *)
Inductive ReadResult :=
| ReadOk (messageType : Z) (data : bytes)
| ReadErr (err : error).

(** What an HTTP GET of the [req] client returns. *)
Record HttpPage := { body : string; cookies : list (string * string) }.

(** ** Protocol messages

    Modelled from the spec: the generated protobuf types
    [new_douyin.Webcast_Im_PushFrame], [Webcast_Im_Response],
    [Webcast_Im_Message] and [douyin.ControlMessage] are not among the
    sources; the fields are those of spec section 6 (wire frame format), under
    the names [douyin.go] uses. *)
Record PushFrame := {
  LogID : Z;                          (* uint64 *)
  PayloadType : string;
  Payload : bytes;
  Headers : list (string * string)
}.

Record Message := { Method : string; MsgPayload : bytes }.

Record Response := {
  NeedAck : bool;
  InternalExt : string;
  Messages : list Message
}.

Record ControlMessage := { Status : Z }.

(** ** The session record (type [DouyinLive]) *)

Record EventHandler := { ID : string }.   (* the callback itself is opaque *)

Record DouyinLive := {
  liveID : string;
  roomID : string;
  pushID : string;
  userAgent : string;
  ttwid : string;
  conn : option Conn;                 (* nil when disconnected *)
  eventHandlers : list EventHandler;
  headers : list (string * string);
  isLiving : bool;
  LiveName : string;
  manualClose : bool
}.

Definition set_conn (c : option Conn) (d : DouyinLive) : DouyinLive :=
  {| liveID := liveID d; roomID := roomID d; pushID := pushID d;
     userAgent := userAgent d; ttwid := ttwid d; conn := c;
     eventHandlers := eventHandlers d; headers := headers d;
     isLiving := isLiving d; LiveName := LiveName d;
     manualClose := manualClose d |}.

Definition set_isLiving (b : bool) (d : DouyinLive) : DouyinLive :=
  {| liveID := liveID d; roomID := roomID d; pushID := pushID d;
     userAgent := userAgent d; ttwid := ttwid d; conn := conn d;
     eventHandlers := eventHandlers d; headers := headers d;
     isLiving := b; LiveName := LiveName d;
     manualClose := manualClose d |}.

Definition set_manualClose (b : bool) (d : DouyinLive) : DouyinLive :=
  {| liveID := liveID d; roomID := roomID d; pushID := pushID d;
     userAgent := userAgent d; ttwid := ttwid d; conn := conn d;
     eventHandlers := eventHandlers d; headers := headers d;
     isLiving := isLiving d; LiveName := LiveName d;
     manualClose := b |}.




(** ** Effects: trace, world, environment *)

Inductive LogArg :=
| ArgErr (e : error)
| ArgInt (n : Z)
| ArgStr (s : string).

Inductive Event :=
| Logged (format : string) (args : list LogArg)     (* logger.Printf / Println *)
| Fetched                                           (* client.R().Get(...) *)
| Dialed (hdrs : list (string * string))            (* Dialer.Dial(url, headers) *)
| ReadFrom (c : Conn)                               (* conn.ReadMessage() *)
| WroteMessage (c : Conn) (messageType : Z) (data : bytes)
| WroteControl (c : Conn) (messageType : Z) (closeCode : Z) (text : string)
| ConnClosed (c : Conn)                             (* conn.Close() *)
| Slept (ms : Z)                                    (* time.Sleep *)
| Handled (id : string) (msg : Message).            (* handler.Handler(msg) *)

Record World := {
  dl : DouyinLive;
  trace : list Event;       (* oldest first *)
  nGet : nat;               (* HTTP GETs issued so far *)
  nDial : nat;              (* dials issued so far *)
  nWrite : nat;             (* WriteMessage / WriteControl calls so far *)
  nClose : nat;             (* conn.Close calls so far *)
  nSleep : nat              (* sleeps of the read-loop goroutine so far *)
}.

(** The answers of the outside world, by call number. *)
Record Env := {
  httpGet : nat -> error + HttpPage;
  loadGoja : option error;              (* jsScript.LoadGoja *)
  dialResult : nat -> DialResult;
  writeResult : nat -> option error;
  closeResult : nat -> option error;
  closeTimedOut : nat -> bool;          (* Close: the 3 s branch of the select won *)
  closeDuringSleep : nat -> bool        (* another goroutine calls Close()
                                           while the read-loop goroutine sleeps *)
}.

(** Functions of packages that are not among the sources (utils, protobuf,
    gzip, regexp, gjson), taken as parameters. *)
Record Lib := {
  HasGzipEncoding : list (string * string) -> bool;   (* utils.HasGzipEncoding *)
  Unmarshal_PushFrame : bytes -> error + PushFrame;   (* proto.Unmarshal *)
  Unmarshal_Response : bytes -> error + Response;
  Unmarshal_ControlMessage : bytes -> error + ControlMessage;
  Marshal_PushFrame : PushFrame -> error + bytes;     (* proto.Marshal *)
  gzip_NewReader : bytes -> error + bytes;            (* header check; the rest of the stream *)
  io_Copy : bytes -> error + bytes;                   (* inflate the stream *)
  isLiveRegex : string -> list string;                (* FindStringSubmatch *)
  roomIDRegex : string -> list string;
  pushIDRegex : string -> list string;
  anchorInfoRegex : string -> list string;
  nickname : string -> string                         (* gjson over the unescaped JSON *)
}.

(** ** The monad: state passing with panics *)

Inductive Outcome (A : Type) :=
| Returned (a : A) (w : World)
| Panicked (w : World).
Arguments Returned {A} a w.
Arguments Panicked {A} w.

Definition M (A : Type) := World -> Outcome A.

Definition ret {A} (a : A) : M A := fun w => Returned a w.

Definition bind {A B} (m : M A) (k : A -> M B) : M B :=
  fun w => match m w with
           | Returned a w' => k a w'
           | Panicked w' => Panicked w'
           end.

Definition panic {A} : M A := fun w => Panicked w.

Notation "x <- m ;; k" := (bind m (fun x => k))
  (at level 61, m at next level, right associativity).
Notation "m ;;; k" := (bind m (fun _ => k))
  (at level 61, right associativity).

Definition get : M DouyinLive := fun w => Returned (dl w) w.

Definition modify (f : DouyinLive -> DouyinLive) : M unit :=
  fun w => Returned tt
    {| dl := f (dl w); trace := trace w; nGet := nGet w; nDial := nDial w;
       nWrite := nWrite w; nClose := nClose w; nSleep := nSleep w |}.

Definition emit (e : Event) : M unit :=
  fun w => Returned tt
    {| dl := dl w; trace := trace w ++ [e]; nGet := nGet w; nDial := nDial w;
       nWrite := nWrite w; nClose := nClose w; nSleep := nSleep w |}.

Definition when (b : bool) (m : M unit) : M unit := if b then m else ret tt.

(** The state of an outcome, whichever way it ended. *)
Definition world_of {A} (o : Outcome A) : World :=
  match o with Returned _ w => w | Panicked w => w end.

Fixpoint forEach {A} (l : list A) (f : A -> M unit) : M unit :=
  match l with
  | [] => ret tt
  | x :: rest => f x ;;; forEach rest f
  end.

(** ** Package [websocket] (gorilla/websocket): constants and the two
    close-error predicates, after the library's [conn.go].  Both predicates
    test the dynamic type of [err] itself with a type assertion; they do not
    look through wrappers. *)
Module websocket.

Definition TextMessage : Z := 1.
Definition BinaryMessage : Z := 2.
Definition CloseMessage : Z := 8.

Definition CloseNormalClosure : Z := 1000.
Definition CloseGoingAway : Z := 1001.
Definition CloseNoStatusReceived : Z := 1005.
Definition CloseAbnormalClosure : Z := 1006.
Definition CloseInvalidFramePayloadData : Z := 1007.
Definition ClosePolicyViolation : Z := 1008.
Definition CloseServiceRestart : Z := 1012.
Definition CloseTryAgainLater : Z := 1013.

Definition hasCode (code : Z) (codes : list Z) : bool :=
  existsb (Z.eqb code) codes.

Definition IsCloseError (err : error) (codes : list Z) : bool :=
  match err with
  | CloseError code _ => hasCode code codes
  | _ => false
  end.

Definition IsUnexpectedCloseError (err : error) (expectedCodes : list Z) : bool :=
  match err with
  | CloseError code _ => negb (hasCode code expectedCodes)
  | _ => false
  end.

End websocket.

(** ** Package [errors]: [errors.As] with a close-error target.  It follows
    the [Unwrap] chain, which here means the [%w] cause of [fmt.Errorf]. *)
Fixpoint errors_As_CloseError (err : error) : option (Z * string) :=
  match err with
  | CloseError code text => Some (code, text)
  | Errorf _ _ cause => errors_As_CloseError cause
  | _ => None
  end.

(** ** Package [retry] (avast/retry-go): the pure part. *)
Module retry.

Definition Unrecoverable (err : error) : error := unrecoverableError err.

Definition unpackUnrecoverable (err : error) : error :=
  match err with
  | unrecoverableError e => e
  | _ => err
  end.

(** The default [retryIf], which [reconnect] replaces by its own. *)
Definition IsRecoverable (err : error) : bool :=
  match err with
  | unrecoverableError _ => false
  | _ => true
  end.

(** [BackOffDelay]: the configured delay (default 100 ms) doubled at every
    attempt, in milliseconds. *)
Definition defaultDelay : Z := 100.
Definition BackOffDelay (n : nat) : Z := Z.shiftl defaultDelay (Z.of_nat n).

End retry.

Definition defaultMaxRetries : Z := 5.

(** [http.Header.Set]: replaces the values of [key]. *)
Definition header_Set (key value : string) (h : list (string * string))
  : list (string * string) :=
  (key, value) :: filter (fun kv => negb (String.eqb (fst kv) key)) h.

(** The status of a read loop whose input is a finite script of read
    results: it has ended, or it is blocked in [ReadMessage] waiting for
    the next frame. *)
Inductive Progress (A : Type) :=
| Finished (a : A)
| Waiting.
Arguments Finished {A} a.
Arguments Waiting {A}.

Section Session.

Variable L : Lib.
Variable E : Env.

(** *** Primitive effects *)

Definition Printf (format : string) (args : list LogArg) : M unit :=
  emit (Logged format args).

Definition Println (line : string) : M unit := emit (Logged line []).

Definition next_get : M (error + HttpPage) := fun w =>
  Returned (httpGet E (nGet w))
    {| dl := dl w; trace := trace w ++ [Fetched]; nGet := S (nGet w);
       nDial := nDial w; nWrite := nWrite w; nClose := nClose w;
       nSleep := nSleep w |}.

Definition Dial (hdrs : list (string * string)) : M DialResult := fun w =>
  Returned (dialResult E (nDial w))
    {| dl := dl w; trace := trace w ++ [Dialed hdrs]; nGet := nGet w;
       nDial := S (nDial w); nWrite := nWrite w; nClose := nClose w;
       nSleep := nSleep w |}.

Definition next_write : M (option error) := fun w =>
  Returned (writeResult E (nWrite w))
    {| dl := dl w; trace := trace w; nGet := nGet w; nDial := nDial w;
       nWrite := S (nWrite w); nClose := nClose w; nSleep := nSleep w |}.

Definition conn_WriteMessage (c : Conn) (messageType : Z) (data : bytes)
  : M (option error) :=
  emit (WroteMessage c messageType data) ;;; next_write.

Definition conn_WriteControl (c : Conn) (messageType : Z) (code : Z) (text : string)
  : M (option error) :=
  emit (WroteControl c messageType code text) ;;; next_write.

(** [conn.Close()]; also answers whether the caller's bounded wait ran out. *)
Definition conn_Close (c : Conn) : M (option error * bool) := fun w =>
  Returned (closeResult E (nClose w), closeTimedOut E (nClose w))
    {| dl := dl w; trace := trace w ++ [ConnClosed c]; nGet := nGet w;
       nDial := nDial w; nWrite := nWrite w; nClose := S (nClose w);
       nSleep := nSleep w |}.

Definition next_sleep : M nat := fun w =>
  Returned (nSleep w)
    {| dl := dl w; trace := trace w; nGet := nGet w; nDial := nDial w;
       nWrite := nWrite w; nClose := nClose w; nSleep := S (nSleep w) |}.

(** *** setLiveStatus *)
Definition setLiveStatus (status : bool) : M unit :=
  modify (set_isLiving status).

(** *** Close

    The goroutine that performs the closing handshake and the [select]
    that waits for it at most 3 s are run in sequence here: the
    goroutine's effects, then the log line of the branch that the
    environment says won.  The mutex has no effect in a sequential run. *)
Definition Close : M unit :=
  setLiveStatus false ;;;
  modify (set_manualClose true) ;;;
  d <- get ;;
  match conn d with
  | None => Println "连接已关闭或未初始化"
  | Some c =>
      modify (set_conn None) ;;;
      err <- conn_WriteControl c websocket.CloseMessage
               websocket.CloseNormalClosure "closing connection" ;;
      match err with
      | Some e => Printf "发送关闭消息失败: %v\n" [ArgErr e]
      | None => ret tt
      end ;;;
      emit (Slept 500) ;;;
      r <- conn_Close c ;;
      match fst r with
      | Some e => Printf "关闭连接失败: %v\n" [ArgErr e]
      | None => ret tt
      end ;;;
      if snd r then Println "关闭连接超时" else Println "连接已成功关闭"
  end.

(** *** time.Sleep on the read-loop goroutine

    While the read-loop goroutine sleeps, another goroutine may call
    [Close()]; the environment says at which sleeps it does. *)
Definition time_Sleep (ms : Z) : M unit :=
  emit (Slept ms) ;;;
  n <- next_sleep ;;
  when (closeDuringSleep E n) Close.

(** *** sendAck *)
Definition ackFrame (logID : Z) (internalExt : string) : PushFrame :=
  {| LogID := logID;
     PayloadType := "ack";
     Payload := list_byte_of_string internalExt;
     Headers := [] |}.

Definition sendAck (logID : Z) (internalExt : string) : M unit :=
  match Marshal_PushFrame L (ackFrame logID internalExt) with
  | inl err => Printf "心跳包序列化失败: %v\n" [ArgErr err]
  | inr data =>
      d <- get ;;
      match conn d with
      | Some c =>
          err <- conn_WriteMessage c websocket.BinaryMessage data ;;
          match err with
          | Some e => Printf "发送心跳包失败: %v\n" [ArgErr e]
          | None => ret tt
          end
      | None => ret tt
      end
  end.

(** *** emitEvent: every registered handler is called, in order.  The
    callbacks are opaque; a call is recorded in the trace. *)
Definition emitEvent (msg : Message) : M unit :=
  d <- get ;;
  forEach (eventHandlers d) (fun handler => emit (Handled (ID handler) msg)).

(** *** handleSingleMessage *)
Definition handleSingleMessage (msg : Message) : M unit :=
  emitEvent msg ;;;
  if String.eqb (Method msg) "WebcastControlMessage" then
    match Unmarshal_ControlMessage L (MsgPayload msg) with
    | inl err => Printf "解析控制消息失败: %v\n" [ArgErr err]
    | inr controlMsg =>
        if Z.eqb (Status controlMsg) 3 then
          d <- get ;;
          Printf "[%s]直播间已关闭" [ArgStr (LiveName d)] ;;;
          setLiveStatus false
        else ret tt
    end
  else ret tt.

(** *** decompressGzip.  The pooled scratch buffer is private to the call
    and reset on every exit, so the function is pure in its argument. *)
Definition decompressGzip (data : bytes) : error + bytes :=
  match gzip_NewReader L data with
  | inl err => inl err
  | inr gz =>
      match io_Copy L gz with
      | inl err => inl err
      | inr result => inr result
      end
  end.

(** *** handleGzipMessage *)
Definition handleGzipMessage (pushFrame : PushFrame) : M unit :=
  match decompressGzip (Payload pushFrame) with
  | inl err => Printf "GZIP解压失败: %v\n" [ArgErr err]
  | inr uncompressed =>
      match Unmarshal_Response L uncompressed with
      | inl err => Printf "解析Response失败: %v\n" [ArgErr err]
      | inr response =>
          when (NeedAck response)
               (sendAck (LogID pushFrame) (InternalExt response)) ;;;
          forEach (Messages response) handleSingleMessage
      end
  end.

(** *** retry.Do (avast/retry-go), after the library's [retry.go], with
    the options [reconnect] passes: [Attempts], [DelayType(BackOffDelay)],
    [RetryIf] and [OnRetry].  [remaining] is [attempts - n]; the library's
    error log is the list of errors recorded so far.  The function given
    to [RetryIf] sees the error exactly as the retried function returned
    it; the log keeps it unpacked. *)
Section RetryDo.

Variable retryableFunc : M (option error).
Variable retryIf : error -> bool.
Variable onRetry : nat -> error -> M unit.

Fixpoint retry_loop (remaining n : nat) (errorLog : list error)
  : M (option error) :=
  match remaining with
  | O => ret (Some (RetryError errorLog))
  | S k =>
      r <- retryableFunc ;;
      match r with
      | None => ret None
      | Some err =>
          let errorLog' := (errorLog ++ [retry.unpackUnrecoverable err])%list in
          if negb (retryIf err) then ret (Some (RetryError errorLog'))
          else
            onRetry n err ;;;
            match k with
            | O => ret (Some (RetryError errorLog'))   (* last attempt: no wait *)
            | S _ =>
                time_Sleep (retry.BackOffDelay n) ;;;
                retry_loop k (S n) errorLog'
            end
      end
  end.

Definition retry_Do (attempts : nat) : M (option error) :=
  retry_loop attempts O [].

End RetryDo.

(** *** reconnect *)

Definition wrappedCodes : list Z :=
  [ websocket.CloseAbnormalClosure; websocket.CloseTryAgainLater;
    websocket.CloseServiceRestart; websocket.CloseGoingAway;
    websocket.CloseNoStatusReceived; websocket.ClosePolicyViolation;
    websocket.CloseInvalidFramePayloadData ].

Definition retryable : M (option error) :=
  d <- get ;;
  r <- Dial (headers d) ;;
  match r with
  | DialErr _ err =>
      if websocket.IsCloseError err wrappedCodes
      then ret (Some (retry.Unrecoverable err))
      else ret (Some err)
  | DialOk c _ => modify (set_conn (Some c)) ;;; ret None
  end.

Definition reconnect_RetryIf (err : error) : bool :=
  negb (websocket.IsCloseError err
          [ websocket.ClosePolicyViolation;
            websocket.CloseInvalidFramePayloadData ]).

Definition reconnect_OnRetry (n : nat) (err : error) : M unit :=
  Printf "第%d次重试连接: %v\n" [ArgInt (Z.of_nat n + 1); ArgErr err].

(** [uint(attempts)] on a 64-bit platform. *)
Definition uint (z : Z) : nat := Z.to_nat (z mod 2 ^ 64).

Definition reconnect (attempts : Z) : M bool :=
  d <- get ;;
  if manualClose d then
    Println "连接被手动关闭，不进行重连" ;;; ret false
  else
    match conn d with
    | Some c =>
        _ <- conn_WriteControl c websocket.CloseMessage
               websocket.CloseGoingAway "reconnecting" ;;
        _ <- conn_Close c ;;
        modify (set_conn None)
    | None => ret tt
    end ;;;
    err <- retry_Do retryable reconnect_RetryIf reconnect_OnRetry (uint attempts) ;;
    match err with
    | Some e => Printf "连接最终失败: %v" [ArgErr e] ;;; ret false
    | None => Println "连接成功，未触发重试" ;;; ret true
    end.

(** *** handleReadError *)
Definition handleReadError (err : error) : M bool :=
  d <- get ;;
  if manualClose d then
    Println "连接被手动关闭，不进行重连" ;;; ret false
  else if negb (websocket.IsUnexpectedCloseError err [websocket.CloseNormalClosure])
  then Printf "正常关闭: %v\n" [ArgErr err] ;;; ret false
  else
    Printf "检测到非正常关闭，尝试重连...错误代码:%v\n" [ArgErr err] ;;;
    let otherNetworkError :=
      Printf "网络错误: %v\n" [ArgErr err] ;;; reconnect defaultMaxRetries in
    match errors_As_CloseError err with
    | Some (code, text) =>
        Printf "WebSocket关闭错误: code=%d, reason=%s\n" [ArgInt code; ArgStr text] ;;;
        if Z.eqb code websocket.CloseAbnormalClosure then
          Println "检测到异常关闭，尝试重连..." ;;;
          reconnect defaultMaxRetries
        else if Z.eqb code websocket.CloseTryAgainLater then
          Println "服务端要求稍后重试..." ;;;
          time_Sleep 5000 ;;;
          reconnect defaultMaxRetries
        else otherNetworkError
    | None => otherNetworkError
    end.

(** *** processMessages

    The loop runs over a finite script of the results of successive
    [ReadMessage] calls.  When the script is used up the loop is blocked in
    [ReadMessage] ([Waiting]).  Calling [ReadMessage] through a nil handle
    is a nil dereference. *)
Fixpoint processMessages (reads : list ReadResult) : M (Progress unit) :=
  d <- get ;;
  if isLiving d then
    match conn d with
    | None => panic
    | Some c =>
        match reads with
        | [] => ret Waiting
        | r :: rest =>
            emit (ReadFrom c) ;;;
            match r with
            | ReadErr err =>
                Printf "读取消息失败:%v\n" [ArgErr err] ;;;
                again <- handleReadError err ;;
                if again then processMessages rest else ret (Finished tt)
            | ReadOk messageType data =>
                if negb (Z.eqb messageType websocket.BinaryMessage)
                   || Nat.eqb (length data) 0
                then processMessages rest
                else
                  match Unmarshal_PushFrame L data with
                  | inl err =>
                      Printf "解析PushFrame失败: %v\n" [ArgErr err] ;;;
                      processMessages rest
                  | inr pushFrame =>
                      when (String.eqb (PayloadType pushFrame) "msg"
                            && HasGzipEncoding L (Headers pushFrame))
                           (handleGzipMessage pushFrame) ;;;
                      processMessages rest
                  end
            end
        end
    end
  else ret (Finished tt).

(** *** Discovery: getPageContent, IsLive, fetchTTWID, fetchRoomInfo *)







(** *** startWebSocket.  [resp.StatusCode] is read on both paths; [resp]
    is nil when the dial failed before the peer answered. *)
Definition startWebSocket : M (option error) :=
  d <- get ;;
  r <- Dial (headers d) ;;
  match r with
  | DialErr resp err =>
      match resp with
      | None => panic
      | Some rsp =>
          ret (Some (Errorf "连接失败 (状态码: %d): %w" [StatusCode rsp] err))
      end
  | DialOk c rsp =>
      Printf "直播间连接成功(状态码):[%d] 直播间名称:[%s]\n"
             [ArgInt (StatusCode rsp); ArgStr (LiveName d)] ;;;
      modify (set_conn (Some c)) ;;;
      ret None
  end.

(** *** cleanup, and [defer]: the deferred call runs when the body
    returns or panics, not while it is still blocked in the read loop. *)
Definition cleanup : M unit :=
  d <- get ;;
  match conn d with
  | Some c => _ <- conn_Close c ;; ret tt
  | None => ret tt
  end.




End Session.

(** ** Observations on traces and worlds *)

Definition with_trace (w : World) (t : list Event) : World :=
  {| dl := dl w; trace := t; nGet := nGet w; nDial := nDial w;
     nWrite := nWrite w; nClose := nClose w; nSleep := nSleep w |}.

(** The data frames written to the transport, oldest first. *)
Fixpoint sent (t : list Event) : list (Conn * bytes) :=
  match t with
  | [] => []
  | WroteMessage c _ data :: rest => (c, data) :: sent rest
  | _ :: rest => sent rest
  end.

(** The handler calls made, oldest first. *)
Fixpoint handled (t : list Event) : list (string * Message) :=
  match t with
  | [] => []
  | Handled id msg :: rest => (id, msg) :: handled rest
  | _ :: rest => handled rest
  end.

(** The handles read from, dialled headers and handles closed. *)
Fixpoint reads_of (t : list Event) : list Conn :=
  match t with
  | [] => []
  | ReadFrom c :: rest => c :: reads_of rest
  | _ :: rest => reads_of rest
  end.

Fixpoint dials (t : list Event) : nat :=
  match t with
  | [] => O
  | Dialed _ :: rest => S (dials rest)
  | _ :: rest => dials rest
  end.

Fixpoint closes (t : list Event) : list Conn :=
  match t with
  | [] => []
  | ConnClosed c :: rest => c :: closes rest
  | _ :: rest => closes rest
  end.

Fixpoint sleeps (t : list Event) : list Z :=
  match t with
  | [] => []
  | Slept ms :: rest => ms :: sleeps rest
  | _ :: rest => sleeps rest
  end.

(** What dispatching a batch to the registered handlers amounts to. *)
Definition dispatches (hs : list EventHandler) (msgs : list Message)
  : list (string * Message) :=
  flat_map (fun msg => map (fun h => (ID h, msg)) hs) msgs.

(** A message that carries the room-closed signal: method
    [WebcastControlMessage] with a payload that decodes to status 3. *)
Definition roomClosed (L : Lib) (msg : Message) : bool :=
  String.eqb (Method msg) "WebcastControlMessage"
  && match Unmarshal_ControlMessage L (MsgPayload msg) with
     | inr controlMsg => Z.eqb (Status controlMsg) 3
     | inl _ => false
     end.

(** [w'] differs from [w] by the data frames [acks] written, the handler
    calls [hs] made, and log lines; the liveness flag may have been
    cleared, never set. *)
Definition dispatched (w w' : World) (acks : list (Conn * bytes))
           (hs : list (string * Message)) : Prop :=
  conn (dl w') = conn (dl w)
  /\ eventHandlers (dl w') = eventHandlers (dl w)
  /\ manualClose (dl w') = manualClose (dl w)
  /\ (isLiving (dl w) = false -> isLiving (dl w') = false)
  /\ sent (trace w') = (sent (trace w) ++ acks)%list
  /\ reads_of (trace w') = reads_of (trace w)
  /\ dials (trace w') = dials (trace w)
  /\ handled (trace w') = (handled (trace w) ++ hs)%list.

(** The environment [E] without concurrent calls of [Close()]. *)
Definition quiet (E : Env) : Env :=
  {| httpGet := httpGet E;
     loadGoja := loadGoja E;
     dialResult := dialResult E;
     writeResult := writeResult E;
     closeResult := closeResult E;
     closeTimedOut := closeTimedOut E;
     closeDuringSleep := fun _ => false |}.

(** ** A small concrete world, used to run the definitions *)
Module Sample.

Definition gzipHeader : list (string * string) := [("compress_type", "gzip")].

Definition chat : Message :=
  {| Method := "WebcastChatMessage"; MsgPayload := [x0a] |}.
Definition roomEnded : Message :=
  {| Method := "WebcastControlMessage"; MsgPayload := [x03] |}.

(** A toy codec: one-byte frames [01] (a batch asking for an ACK),
    [05] (a batch with the room-closed control message), [06] (bad gzip
    payload); every other frame fails to decode. *)
Definition lib : Lib :=
  {| HasGzipEncoding := fun h =>
       existsb (fun kv => String.eqb (fst kv) "compress_type"
                          && String.eqb (snd kv) "gzip") h;
     Unmarshal_PushFrame := fun data =>
       match data with
       | [x01] => inr {| LogID := 42; PayloadType := "msg";
                                Payload := [x02]; Headers := gzipHeader |}
       | [x05] => inr {| LogID := 43; PayloadType := "msg";
                                Payload := [x12]; Headers := gzipHeader |}
       | [x06] => inr {| LogID := 44; PayloadType := "msg";
                                Payload := [xff]; Headers := gzipHeader |}
       | _ => inl (OtherError "proto: cannot parse invalid wire-format data")
       end;
     Unmarshal_Response := fun u =>
       match u with
       | [x04] => inr {| NeedAck := true; InternalExt := "XYZ";
                                Messages := [chat] |}
       | [x14] => inr {| NeedAck := false; InternalExt := "";
                                Messages := [roomEnded; chat] |}
       | _ => inl (OtherError "proto: cannot parse invalid wire-format data")
       end;
     Unmarshal_ControlMessage := fun p =>
       match p with
       | [b] => inr {| Status := Z.of_N (Byte.to_N b) |}
       | _ => inl (OtherError "proto: cannot parse invalid wire-format data")
       end;
     Marshal_PushFrame := fun pf =>
       inr (list_byte_of_string (PayloadType pf) ++ Payload pf)%list;
     gzip_NewReader := fun data =>
       match data with
       | [xff] => inl (OtherError "gzip: invalid header")
       | _ => inr data
       end;
     io_Copy := fun gz =>
       match gz with
       | [x02] => inr [x04]
       | [x12] => inr [x14]
       | _ => inl (OtherError "unexpected EOF")
       end;
     isLiveRegex := fun _ => [];
     roomIDRegex := fun _ => [];
     pushIDRegex := fun _ => [];
     anchorInfoRegex := fun _ => [];
     nickname := fun s => s |}.

(** An environment in which the [k]-th dial is answered by [dial k] and
    [Close()] is called concurrently during the sleeps [closing] selects;
    writes and closes succeed. *)
Definition env (dial : nat -> DialResult) (closing : nat -> bool)
               (goja : option error) : Env :=
  {| httpGet := fun _ => inl (OtherError "dial tcp: i/o timeout");
     loadGoja := goja;
     dialResult := dial;
     writeResult := fun _ => None;
     closeResult := fun _ => None;
     closeTimedOut := fun _ => false;
     closeDuringSleep := closing |}.

Definition noResponse : error := OtherError "dial tcp: connection refused".

Definition allFail : nat -> DialResult := fun _ => DialErr None noResponse.
Definition never : nat -> bool := fun _ => false.

Definition session (c : option Conn) (living manual : bool) : DouyinLive :=
  {| liveID := "123"; roomID := "7000"; pushID := "8000";
     userAgent := "Mozilla/5.0"; ttwid := "t";
     conn := c; eventHandlers := [ {| ID := "h1" |}; {| ID := "h2" |} ];
     headers := []; isLiving := living; LiveName := "room";
     manualClose := manual |}.

Definition world (c : option Conn) (living manual : bool) : World :=
  {| dl := session c living manual; trace := [];
     nGet := 0; nDial := 0; nWrite := 0; nClose := 0; nSleep := 0 |}.

Definition switching : HttpResponse := {| StatusCode := 101 |}.

(** The first dial is refused with close code 1008 (policy violation),
    the second is accepted. *)
Definition policyViolationThenOk (k : nat) : DialResult :=
  match k with
  | O => DialErr None (CloseError websocket.ClosePolicyViolation "policy")
  | S _ => DialOk 7%nat switching
  end.

(** The first dial fails, the second is accepted. *)
Definition failThenOk (k : nat) : DialResult :=
  match k with
  | O => DialErr None noResponse
  | S _ => DialOk 7%nat switching
  end.

Definition duringFirstSleep (n : nat) : bool := Nat.eqb n 0.

End Sample.

(** ** Further operations of the session: constructors, the subscriber
    registry, [readMessage], [isUnexpectedClose] *)

Definition set_eventHandlers (hs : list EventHandler) (d : DouyinLive)
  : DouyinLive :=
  {| liveID := liveID d; roomID := roomID d; pushID := pushID d;
     userAgent := userAgent d; ttwid := ttwid d; conn := conn d;
     eventHandlers := hs; headers := headers d;
     isLiving := isLiving d; LiveName := LiveName d;
     manualClose := manualClose d |}.



(** [Subscribe]: the handler is appended under the identifier [id] that
    [utils.GenerateUniqueID()] returned. *)
Definition Subscribe (id : string) : M string :=
  modify (fun d =>
            set_eventHandlers (eventHandlers d ++ [ {| ID := id |} ])%list d) ;;;
  ret id.

(** [Unsubscribe]: the loop removes the first handler whose identifier is
    [id] and breaks. *)
Fixpoint removeHandler (id : string) (hs : list EventHandler)
  : list EventHandler :=
  match hs with
  | [] => []
  | h :: rest =>
      if String.eqb (ID h) id then rest else h :: removeHandler id rest
  end.

Definition Unsubscribe (id : string) : M unit :=
  modify (fun d => set_eventHandlers (removeHandler id (eventHandlers d)) d).

(** [readMessage]: guarded read.  [r] is what [conn.ReadMessage()] returns
    when it is called. *)
Definition readMessage (r : ReadResult) : M ReadResult :=
  d <- get ;;
  match conn d with
  | None => ret (ReadErr (OtherError "连接已关闭"))
  | Some c => emit (ReadFrom c) ;;; ret r
  end.


(** [http.Header.Get] on the header list. *)
Definition header_Get (key : string) (h : list (string * string))
  : option string :=
  match find (fun kv => String.eqb (fst kv) key) h with
  | Some kv => Some (snd kv)
  | None => None
  end.



(** The control frames written, oldest first. *)
Fixpoint controls (t : list Event) : list (Conn * Z * string) :=
  match t with
  | [] => []
  | WroteControl c _ code text :: rest => (c, code, text) :: controls rest
  | _ :: rest => controls rest
  end.

(** The events a reconnect cycle produces once the stale handle is
    dropped: dials, log lines and waits. *)
Definition cycle_event (e : Event) : bool :=
  match e with
  | Dialed _ | Logged _ _ | Slept _ => true
  | _ => false
  end.





(** ** makeURL: the browser part (the first two statements after the
    time stamp).  The rest of the URL, the time stamp and the signature
    computed by the embedded script, only feeds the dial.

    [afterFirst sep s] is [strings.SplitN(s, sep, 2)[1]] for a non-empty
    [sep]: the text after the first occurrence of [sep], and [None], an
    index out of range at run time, when [sep] does not occur. *)
Fixpoint startsWith (sep s : string) : option string :=
  match sep, s with
  | EmptyString, _ => Some s
  | String a sep', String b s' =>
      if Ascii.eqb a b then startsWith sep' s' else None
  | String _ _, EmptyString => None
  end.

Fixpoint afterFirst (sep s : string) : option string :=
  match startsWith sep s with
  | Some rest => Some rest
  | None =>
      match s with
      | EmptyString => None
      | String _ s' => afterFirst sep s'
      end
  end.

(** [strings.ReplaceAll(s, " ", "%20")] *)
Fixpoint escapeSpaces (s : string) : string :=
  match s with
  | EmptyString => EmptyString
  | String c s' =>
      if Ascii.eqb c " "%char
      then "%20" ++ escapeSpaces s'
      else String c (escapeSpaces s')
  end.

Definition makeURL_browser (ua : string) : option string :=
  match afterFirst "Mozilla" ua with
  | Some browserInfo => Some (escapeSpaces browserInfo)
  | None => None
  end.

(** ** A second concrete world, in which discovery succeeds *)
Module Scenario.

Definition page : HttpPage :=
  {| body := "<html>"; cookies := [("sid", "1"); ("ttwid", "abc")] |}.

Definition lib : Lib :=
  {| HasGzipEncoding := HasGzipEncoding Sample.lib;
     Unmarshal_PushFrame := Unmarshal_PushFrame Sample.lib;
     Unmarshal_Response := Unmarshal_Response Sample.lib;
     Unmarshal_ControlMessage := Unmarshal_ControlMessage Sample.lib;
     Marshal_PushFrame := Marshal_PushFrame Sample.lib;
     gzip_NewReader := gzip_NewReader Sample.lib;
     io_Copy := io_Copy Sample.lib;
     isLiveRegex := fun _ => ["m"; "7000"; "2"; "2"; "title"; "10"];
     roomIDRegex := fun _ => ["m"; "7000"];
     pushIDRegex := fun _ => ["m"; "8000"];
     anchorInfoRegex := fun _ => ["m"; "anchor"];
     nickname := fun s => s |}.

Definition env : Env :=
  {| httpGet := fun _ => inr page;
     loadGoja := None;
     dialResult := fun _ => DialOk 7%nat Sample.switching;
     writeResult := fun _ => None;
     closeResult := fun _ => None;
     closeTimedOut := fun _ => false;
     closeDuringSleep := fun _ => false |}.


End Scenario.

(** ** Basic facts about the monad and the trace observations *)

Lemma sent_app (a b : list Event) : sent (a ++ b) = (sent a ++ sent b)%list.
Proof.
  induction a as [|e a IH]; simpl; [reflexivity|].
  destruct e; simpl; rewrite ?IH; reflexivity.
Qed.

Lemma handled_app (a b : list Event) :
  handled (a ++ b) = (handled a ++ handled b)%list.
Proof.
  induction a as [|e a IH]; simpl; [reflexivity|].
  destruct e; simpl; rewrite ?IH; reflexivity.
Qed.

Lemma reads_of_app (a b : list Event) :
  reads_of (a ++ b) = (reads_of a ++ reads_of b)%list.
Proof.
  induction a as [|e a IH]; simpl; [reflexivity|].
  destruct e; simpl; rewrite ?IH; reflexivity.
Qed.

Lemma dials_app (a b : list Event) : dials (a ++ b) = (dials a + dials b)%nat.
Proof.
  induction a as [|e a IH]; simpl; [reflexivity|].
  destruct e; simpl; rewrite ?IH; reflexivity.
Qed.

Lemma closes_app (a b : list Event) :
  closes (a ++ b) = (closes a ++ closes b)%list.
Proof.
  induction a as [|e a IH]; simpl; [reflexivity|].
  destruct e; simpl; rewrite ?IH; reflexivity.
Qed.

Lemma sleeps_app (a b : list Event) :
  sleeps (a ++ b) = (sleeps a ++ sleeps b)%list.
Proof.
  induction a as [|e a IH]; simpl; [reflexivity|].
  destruct e; simpl; rewrite ?IH; reflexivity.
Qed.

Lemma bind_Returned {A B} (m : M A) (k : A -> M B) (w w' : World) (a : A) :
  m w = Returned a w' -> bind m k w = k a w'.
Proof. intro H. unfold bind. rewrite H. reflexivity. Qed.

Lemma with_trace_same (w : World) : with_trace w (trace w) = w.
Proof. destruct w; reflexivity. Qed.

(** Unfolding the monad and the primitive effects. *)
Ltac run :=
  cbv [bind ret get modify emit when panic Printf Println setLiveStatus
       conn_WriteMessage conn_WriteControl conn_Close next_write next_sleep
       next_get Dial world_of with_trace];
  cbn [dl trace nGet nDial nWrite nClose nSleep conn isLiving manualClose
       eventHandlers headers LiveName set_conn set_isLiving set_manualClose
       fst snd].

Ltac trace_eq :=
  unfold with_trace; cbn [dl trace nGet nDial nWrite nClose nSleep];
  f_equal; rewrite <- ?app_assoc; reflexivity.

(** ** sendAck *)

(** C10. Called while the handle is nil, or when the ACK frame cannot be
    marshalled, [sendAck] returns normally, writes nothing to the transport
    and leaves the session record as it was; in the second case the only
    effect is one log line. *)
Theorem C10_sendAck_nil_handle_or_marshal_failure :
  forall (L : Lib) (E : Env) (logID : Z) (internalExt : string) (w : World),
    conn (dl w) = None \/
    (exists e, Marshal_PushFrame L (ackFrame logID internalExt) = inl e) ->
    exists w',
      sendAck L E logID internalExt w = Returned tt w'
      /\ dl w' = dl w
      /\ sent (trace w') = sent (trace w)
      /\ nWrite w' = nWrite w
      /\ (w' = w \/
          exists e, Marshal_PushFrame L (ackFrame logID internalExt) = inl e
                    /\ trace w' = (trace w ++ [Logged "心跳包序列化失败: %v\n" [ArgErr e]])%list).
Proof.
  intros L E logID internalExt w H.
  unfold sendAck.
  destruct (Marshal_PushFrame L (ackFrame logID internalExt)) as [e|data] eqn:HM.
  - eexists; split; [run; reflexivity|].
    cbn [dl trace nWrite]. rewrite sent_app. simpl. rewrite app_nil_r.
    repeat split. right. exists e. split; reflexivity.
  - destruct H as [Hnil | [e He]]; [|discriminate].
    exists w. run. rewrite Hnil. repeat split. left; reflexivity.
Qed.

Lemma C10_sendAck_witness :
  exists w',
    sendAck Sample.lib (Sample.env Sample.allFail Sample.never None) 42 "XYZ"
            (Sample.world None true true) = Returned tt w'
    /\ dl w' = dl (Sample.world None true true)
    /\ sent (trace w') = sent (trace (Sample.world None true true))
    /\ nWrite w' = nWrite (Sample.world None true true)
    /\ (w' = Sample.world None true true \/
        exists e, Marshal_PushFrame Sample.lib (ackFrame 42 "XYZ") = inl e
                  /\ trace w' = (trace (Sample.world None true true)
                                 ++ [Logged "心跳包序列化失败: %v\n" [ArgErr e]])%list).
Proof.
  apply (C10_sendAck_nil_handle_or_marshal_failure
           Sample.lib (Sample.env Sample.allFail Sample.never None) 42 "XYZ"
           (Sample.world None true true)).
  left. reflexivity.
Defined.

(** ** Close *)

(** C9. [Close()] is idempotent.  The first call leaves liveness false,
    manualClose true and the handle nil, and closes the handle it found
    exactly once; a second call in sequence returns normally and changes
    nothing but the log: the session record and every call counter are
    those the first call left, and the transport is not touched again. *)
Theorem C9_close_is_idempotent :
  forall (E : Env) (w : World),
    exists w1,
      Close E w = Returned tt w1
      /\ isLiving (dl w1) = false
      /\ manualClose (dl w1) = true
      /\ conn (dl w1) = None
      /\ closes (trace w1)
         = (closes (trace w)
            ++ match conn (dl w) with Some c => [c] | None => [] end)%list
      /\ Close E w1
         = Returned tt
             (with_trace w1 (trace w1 ++ [Logged "连接已关闭或未初始化" []])).
Proof.
  intros E [d t g n k c s]. destruct d as [a1 a2 a3 a4 a5 h a7 a8 a9 a10 a11].
  unfold Close. destruct h as [hc|].
  - run.
    destruct (writeResult E k); run; destruct (closeResult E c); run;
      destruct (closeTimedOut E c); run;
      (eexists; split; [reflexivity|]);
      cbn [dl trace isLiving manualClose conn];
      rewrite ?closes_app; simpl; rewrite ?app_nil_r;
      repeat split; reflexivity.
  - run. eexists; split; [reflexivity|].
    cbn [dl trace isLiving manualClose conn].
    rewrite ?closes_app; simpl; rewrite ?app_nil_r.
    repeat split; reflexivity.
Qed.

(** ** handleReadError and the read loop: normal closure *)

(** C4. A read error that is a close error with code 1000 (normal closure)
    makes [handleReadError] return false after one log line and nothing
    else: no dial, no write, no change to the session.  The read loop
    then stops, whatever the rest of the input would have been. *)
Theorem C4_normal_closure_never_reconnects :
  forall (L : Lib) (E : Env) (text : string) (rest : list ReadResult)
         (c : Conn) (w : World),
    isLiving (dl w) = true ->
    conn (dl w) = Some c ->
    let err := CloseError websocket.CloseNormalClosure text in
    let line := if manualClose (dl w)
                then Logged "连接被手动关闭，不进行重连" []
                else Logged "正常关闭: %v\n" [ArgErr err] in
    handleReadError E err w
      = Returned false (with_trace w (trace w ++ [line]))
    /\ processMessages L E (ReadErr err :: rest) w
      = Returned (Finished tt)
          (with_trace w (trace w ++ [ReadFrom c;
                                     Logged "读取消息失败:%v\n" [ArgErr err];
                                     line]))
    /\ dials (trace w ++ [ReadFrom c; Logged "读取消息失败:%v\n" [ArgErr err]; line])
       = dials (trace w).
Proof.
  intros L E text rest c w Hlive Hconn err line.
  assert (Hh : forall t,
             handleReadError E err (with_trace w t)
             = Returned false (with_trace w (t ++ [line]))).
  { intro t. unfold handleReadError, line. run.
    destruct (manualClose (dl w)); run; reflexivity. }
  split; [|split].
  - rewrite <- (with_trace_same w) at 1. apply Hh.
  - cbn [processMessages]. unfold bind at 1. unfold get.
    rewrite Hlive, Hconn.
    run. fold (with_trace w ((trace w ++ [ReadFrom c]) ++
                 [Logged "读取消息失败:%v\n" [ArgErr err]])).
    rewrite Hh. trace_eq.
  - rewrite dials_app. destruct (manualClose (dl w)); simpl; lia.
Qed.

Lemma C4_normal_closure_witness :
  processMessages Sample.lib (Sample.env Sample.allFail Sample.never None)
    [ReadErr (CloseError 1000 "bye"); ReadOk 2 [x01]]
    (Sample.world (Some 3%nat) true false)
  = Returned (Finished tt)
      (with_trace (Sample.world (Some 3%nat) true false)
         [ReadFrom 3%nat;
          Logged "读取消息失败:%v\n" [ArgErr (CloseError 1000 "bye")];
          Logged "正常关闭: %v\n" [ArgErr (CloseError 1000 "bye")]]).
Proof.
  exact (proj1 (proj2 (C4_normal_closure_never_reconnects
                  Sample.lib (Sample.env Sample.allFail Sample.never None)
                  "bye" [ReadOk 2 [x01]] 3%nat
                  (Sample.world (Some 3%nat) true false)
                  eq_refl eq_refl))).
Defined.

(** ** Dispatch of a decoded batch *)

Lemma handled_map_Handled (msg : Message) (hs : list EventHandler) :
  handled (map (fun h => Handled (ID h) msg) hs)
  = map (fun h => (ID h, msg)) hs.
Proof. induction hs as [|h hs IH]; simpl; [|rewrite IH]; reflexivity. Qed.

Lemma quiet_map_Handled (msg : Message) (hs : list EventHandler) :
  sent (map (fun h => Handled (ID h) msg) hs) = []
  /\ reads_of (map (fun h => Handled (ID h) msg) hs) = []
  /\ dials (map (fun h => Handled (ID h) msg) hs) = O.
Proof. induction hs as [|h hs IH]; simpl; [|exact IH]; repeat split. Qed.

Lemma forEach_handlers (msg : Message) (hs : list EventHandler) :
  forall w t,
    forEach hs (fun handler => emit (Handled (ID handler) msg)) (with_trace w t)
    = Returned tt
        (with_trace w (t ++ map (fun h => Handled (ID h) msg) hs)).
Proof.
  induction hs as [|h hs IH]; intros w t; simpl.
  - rewrite app_nil_r. reflexivity.
  - run. fold (with_trace w (t ++ [Handled (ID h) msg])).
    rewrite IH. trace_eq.
Qed.

Lemma emitEvent_trace (msg : Message) (w : World) :
  emitEvent msg w
  = Returned tt
      (with_trace w
         (trace w ++ map (fun h => Handled (ID h) msg) (eventHandlers (dl w)))).
Proof.
  unfold emitEvent, bind, get.
  pose proof (forEach_handlers msg (eventHandlers (dl w)) w (trace w)) as H.
  rewrite with_trace_same in H. exact H.
Qed.

Lemma dispatched_refl (w : World) : dispatched w w [] [].
Proof. unfold dispatched. rewrite !app_nil_r. repeat split. auto. Qed.

Lemma dispatched_trans (w1 w2 w3 : World) (a a' : list (Conn * bytes))
      (b b' : list (string * Message)) :
  dispatched w1 w2 a b -> dispatched w2 w3 a' b' ->
  dispatched w1 w3 (a ++ a') (b ++ b').
Proof.
  unfold dispatched.
  intros (A1 & A2 & A3 & A4 & A5 & A6 & A7 & A8)
         (B1 & B2 & B3 & B4 & B5 & B6 & B7 & B8).
  rewrite B1, B2, B3, B5, B6, B7, B8, A1, A2, A3, A5, A6, A7, A8, !app_assoc.
  repeat split. auto.
Qed.

Ltac by_trace :=
  unfold dispatched;
  cbn [dl trace conn eventHandlers manualClose isLiving set_isLiving];
  rewrite ?sent_app, ?reads_of_app, ?dials_app, ?handled_app,
    ?handled_map_Handled;
  simpl; rewrite ?app_nil_r;
  repeat split; auto; try lia.

(** One message: every registered handler is called once, in order; a
    room-closed control message clears the liveness flag. *)
Lemma handleSingleMessage_dispatched (L : Lib) (msg : Message) (w : World) :
  exists w',
    handleSingleMessage L msg w = Returned tt w'
    /\ dispatched w w' [] (map (fun h => (ID h, msg)) (eventHandlers (dl w)))
    /\ (roomClosed L msg = true -> isLiving (dl w') = false).
Proof.
  unfold handleSingleMessage, roomClosed.
  unfold bind at 1. rewrite emitEvent_trace.
  pose proof (quiet_map_Handled msg (eventHandlers (dl w))) as (Q1 & Q2 & Q3).
  destruct (String.eqb (Method msg) "WebcastControlMessage").
  - destruct (Unmarshal_ControlMessage L (MsgPayload msg)) as [e|cm].
    + run. eexists; split; [reflexivity|]. split; [|discriminate].
      unfold dispatched; cbn [dl trace].
      rewrite !sent_app, !reads_of_app, !dials_app, !handled_app,
        handled_map_Handled, Q1, Q2, Q3. by_trace.
    + destruct (Z.eqb (Status cm) 3).
      * run. eexists; split; [reflexivity|]. split; [|reflexivity].
        unfold dispatched; cbn [dl trace conn eventHandlers manualClose isLiving
                                  set_isLiving].
        rewrite !sent_app, !reads_of_app, !dials_app, !handled_app,
          handled_map_Handled, Q1, Q2, Q3. by_trace.
      * run. eexists; split; [reflexivity|]. split; [|discriminate].
        unfold dispatched; cbn [dl trace].
        rewrite !sent_app, !reads_of_app, !dials_app, !handled_app,
          handled_map_Handled, Q1, Q2, Q3. by_trace.
  - run. eexists; split; [reflexivity|]. split; [|discriminate].
    unfold dispatched; cbn [dl trace].
    rewrite !sent_app, !reads_of_app, !dials_app, !handled_app,
      handled_map_Handled, Q1, Q2, Q3. by_trace.
Qed.

(** A batch: the messages are dispatched in order, and a room-closed
    signal anywhere in the batch leaves the liveness flag false. *)
Lemma forEach_messages_dispatched (L : Lib) (msgs : list Message) :
  forall w,
    exists w',
      forEach msgs (handleSingleMessage L) w = Returned tt w'
      /\ dispatched w w' [] (dispatches (eventHandlers (dl w)) msgs)
      /\ (existsb (roomClosed L) msgs = true -> isLiving (dl w') = false).
Proof.
  induction msgs as [|msg msgs IH]; intro w.
  - exists w. simpl. split; [reflexivity|]. split; [apply dispatched_refl|discriminate].
  - destruct (handleSingleMessage_dispatched L msg w) as (w1 & H1 & D1 & C1).
    destruct (IH w1) as (w2 & H2 & D2 & C2).
    exists w2. split.
    + cbn [forEach]. unfold bind. rewrite H1. exact H2.
    + split.
      * unfold dispatches in *. cbn [flat_map].
        apply (dispatched_trans w w1 w2 [] []); [exact D1|].
        destruct D1 as (_ & Hh & _). rewrite <- Hh. exact D2.
      * cbn [existsb]. intro Hex. apply orb_true_iff in Hex.
        destruct Hex as [Hm|Hr]; [|auto].
        destruct D2 as (_ & _ & _ & Hlive & _). auto.
Qed.

(** ** The ACK sub-protocol *)

(** What the trace says about the ACK of a frame whose batch asked for
    one: exactly one data frame written, the marshalled ACK; or, when the
    ACK frame cannot be marshalled, none and a log line. *)
Lemma sendAck_connected (L : Lib) (E : Env) (logID : Z) (internalExt : string)
      (c : Conn) (w : World) :
  conn (dl w) = Some c ->
  exists w',
    sendAck L E logID internalExt w = Returned tt w'
    /\ dl w' = dl w
    /\ (exists more, trace w' = (trace w ++ more)%list)
    /\ match Marshal_PushFrame L (ackFrame logID internalExt) with
       | inr wire =>
           dispatched w w' [(c, wire)] []
           /\ (forall e, writeResult E (nWrite w) = Some e ->
                 In (Logged "发送心跳包失败: %v\n" [ArgErr e]) (trace w'))
       | inl e =>
           dispatched w w' [] []
           /\ In (Logged "心跳包序列化失败: %v\n" [ArgErr e]) (trace w')
       end.
Proof.
  intro Hc. unfold sendAck.
  destruct (Marshal_PushFrame L (ackFrame logID internalExt)) as [e|wire].
  - run. eexists; split; [reflexivity|]. cbn [dl trace].
    split; [reflexivity|]. split; [eexists; reflexivity|].
    split; [by_trace|]. apply in_or_app; right; left; reflexivity.
  - run. rewrite Hc. destruct (writeResult E (nWrite w)) as [e|] eqn:Hw; run;
      (eexists; split; [reflexivity|]); cbn [dl trace];
      (split; [reflexivity|]);
      (split; [rewrite <- ?app_assoc; eexists; reflexivity|]);
      (split; [by_trace|]);
      intros e' He'; inversion He'; subst;
      apply in_or_app; right; left; reflexivity.
Qed.

Lemma in_trace_extends (ev : Event) (t more : list Event) :
  In ev t -> In ev (t ++ more).
Proof. intro H. apply in_or_app. left. exact H. Qed.

(** Everything [forEach] and [handleSingleMessage] do only extends the trace. *)
Lemma handleSingleMessage_extends (L : Lib) (msg : Message) (w w' : World) :
  handleSingleMessage L msg w = Returned tt w' ->
  exists more, trace w' = (trace w ++ more)%list.
Proof.
  unfold handleSingleMessage. unfold bind at 1. rewrite emitEvent_trace.
  destruct (String.eqb (Method msg) "WebcastControlMessage");
    [destruct (Unmarshal_ControlMessage L (MsgPayload msg)) as [e|cm];
     [|destruct (Z.eqb (Status cm) 3)]|];
    run; intro H; inversion H; subst; cbn [trace];
    rewrite <- ?app_assoc; eexists; reflexivity.
Qed.

Lemma forEach_messages_extends (L : Lib) (msgs : list Message) :
  forall w w',
    forEach msgs (handleSingleMessage L) w = Returned tt w' ->
    exists more, trace w' = (trace w ++ more)%list.
Proof.
  induction msgs as [|msg msgs IH]; intros w w' H.
  - inversion H; subst. exists []. rewrite app_nil_r. reflexivity.
  - cbn [forEach] in H. unfold bind in H.
    destruct (handleSingleMessage_dispatched L msg w) as (w1 & H1 & _).
    rewrite H1 in H.
    destruct (handleSingleMessage_extends L msg w w1 H1) as [m1 E1].
    destruct (IH w1 w' H) as [m2 E2].
    exists (m1 ++ m2)%list. rewrite E2, E1, app_assoc. reflexivity.
Qed.

(** A frame whose payload decompresses and decodes: the ACK when one is
    asked for, then the whole batch. *)
Lemma handleGzipMessage_decoded (L : Lib) (E : Env) (pf : PushFrame)
      (u : bytes) (resp : Response) (c : Conn) (w : World) :
  conn (dl w) = Some c ->
  decompressGzip L (Payload pf) = inr u ->
  Unmarshal_Response L u = inr resp ->
  exists w',
    handleGzipMessage L E pf w = Returned tt w'
    /\ dispatched w w'
         (if NeedAck resp then
            match Marshal_PushFrame L (ackFrame (LogID pf) (InternalExt resp)) with
            | inr wire => [(c, wire)]
            | inl _ => []
            end
          else [])
         (dispatches (eventHandlers (dl w)) (Messages resp))
    /\ (existsb (roomClosed L) (Messages resp) = true -> isLiving (dl w') = false)
    /\ (NeedAck resp = true ->
        match Marshal_PushFrame L (ackFrame (LogID pf) (InternalExt resp)) with
        | inr wire =>
            forall e, writeResult E (nWrite w) = Some e ->
              In (Logged "发送心跳包失败: %v\n" [ArgErr e]) (trace w')
        | inl e => In (Logged "心跳包序列化失败: %v\n" [ArgErr e]) (trace w')
        end).
Proof.
  intros Hc Hz Hr. unfold handleGzipMessage. rewrite Hz, Hr.
  destruct (NeedAck resp) eqn:Hneed; cbn [when].
  - destruct (sendAck_connected L E (LogID pf) (InternalExt resp) c w Hc)
      as (w1 & H1 & Hdl & _ & Hack).
    destruct (forEach_messages_dispatched L (Messages resp) w1)
      as (w2 & H2 & D2 & Hclosed).
    destruct (forEach_messages_extends L _ _ _ H2) as [more Hmore].
    exists w2. split; [unfold bind; rewrite H1; exact H2|].
    rewrite Hdl in D2.
    destruct (Marshal_PushFrame L (ackFrame (LogID pf) (InternalExt resp)))
      as [e|wire]; destruct Hack as [D1 Hlog].
    + split; [exact (dispatched_trans _ _ _ _ _ _ _ D1 D2)|].
      split; [exact Hclosed|]. intros _. rewrite Hmore.
      apply in_trace_extends, Hlog.
    + split; [exact (dispatched_trans _ _ _ _ _ _ _ D1 D2)|].
      split; [exact Hclosed|]. intros _ e He. rewrite Hmore.
      apply in_trace_extends, Hlog, He.
  - destruct (forEach_messages_dispatched L (Messages resp) w)
      as (w2 & H2 & D2 & Hclosed).
    exists w2. split; [unfold bind, ret; exact H2|].
    split; [exact D2|]. split; [exact Hclosed|discriminate].
Qed.

(** The loop on a session that is no longer live reads nothing. *)
Lemma processMessages_not_living (L : Lib) (E : Env) (reads : list ReadResult)
      (w : World) :
  isLiving (dl w) = false ->
  processMessages L E reads w = Returned (Finished tt) w.
Proof.
  intro H. destruct reads; cbn [processMessages]; unfold bind, get;
    rewrite H; reflexivity.
Qed.

(** One iteration on a binary, non-empty frame that decodes to [pf]. *)
Lemma processMessages_frame (L : Lib) (E : Env) (data : bytes) (pf : PushFrame)
      (rest : list ReadResult) (c : Conn) (w : World) :
  isLiving (dl w) = true ->
  conn (dl w) = Some c ->
  data <> [] ->
  Unmarshal_PushFrame L data = inr pf ->
  processMessages L E (ReadOk websocket.BinaryMessage data :: rest) w
  = (when (String.eqb (PayloadType pf) "msg" && HasGzipEncoding L (Headers pf))
          (handleGzipMessage L E pf) ;;;
     processMessages L E rest)
      (with_trace w (trace w ++ [ReadFrom c])).
Proof.
  intros Hlive Hc Hne Hpf.
  cbn [processMessages]. unfold bind at 1. unfold get. rewrite Hlive, Hc.
  unfold bind at 1. unfold emit at 1.
  destruct data as [|b data]; [congruence|].
  cbn [length Nat.eqb Z.eqb websocket.BinaryMessage negb orb Pos.eqb].
  rewrite Hpf. reflexivity.
Qed.

Lemma processMessages_nil (L : Lib) (E : Env) (c : Conn) (w : World) :
  conn (dl w) = Some c ->
  exists p, processMessages L E [] w = Returned p w.
Proof.
  intro Hc. cbn [processMessages]. unfold bind, get. rewrite Hc.
  destruct (isLiving (dl w)); eexists; reflexivity.
Qed.

Lemma gzip_msg_selected (L : Lib) (pf : PushFrame) :
  PayloadType pf = "msg" ->
  HasGzipEncoding L (Headers pf) = true ->
  String.eqb (PayloadType pf) "msg" && HasGzipEncoding L (Headers pf) = true.
Proof. intros H1 H2. rewrite H1, H2. reflexivity. Qed.

(** C1. A received binary frame that decodes to a push frame with
    payloadType "msg" and the gzip flag, whose payload decompresses and
    decodes to a response with needAck = true: the loop iteration returns
    (it does not panic), every message of the batch is dispatched to every
    handler in order, and exactly one data frame is written to the handle,
    the marshalled push frame with the received logID, payloadType "ack"
    and the bytes of internalExt as payload.  A failing write is logged; a
    frame that cannot be marshalled is logged and not written.  Neither
    failure changes the dispatch of the batch. *)
Theorem C1_one_ack_per_needAck_frame :
  forall (L : Lib) (E : Env) (data : bytes) (pf : PushFrame) (u : bytes)
         (resp : Response) (c : Conn) (w : World),
    isLiving (dl w) = true ->
    conn (dl w) = Some c ->
    data <> [] ->
    Unmarshal_PushFrame L data = inr pf ->
    PayloadType pf = "msg" ->
    HasGzipEncoding L (Headers pf) = true ->
    decompressGzip L (Payload pf) = inr u ->
    Unmarshal_Response L u = inr resp ->
    NeedAck resp = true ->
    exists p w',
      processMessages L E [ReadOk websocket.BinaryMessage data] w = Returned p w'
      /\ handled (trace w')
         = (handled (trace w)
            ++ dispatches (eventHandlers (dl w)) (Messages resp))%list
      /\ match Marshal_PushFrame L
                 {| LogID := LogID pf;
                    PayloadType := "ack";
                    Payload := list_byte_of_string (InternalExt resp);
                    Headers := [] |} with
         | inr wire =>
             sent (trace w') = (sent (trace w) ++ [(c, wire)])%list
             /\ (forall e, writeResult E (nWrite w) = Some e ->
                   In (Logged "发送心跳包失败: %v\n" [ArgErr e]) (trace w'))
         | inl e =>
             sent (trace w') = sent (trace w)
             /\ In (Logged "心跳包序列化失败: %v\n" [ArgErr e]) (trace w')
         end.
Proof.
  intros L E data pf u resp c w Hlive Hc Hne Hpf Hmsg Hgz Hz Hr Hneed.
  rewrite (processMessages_frame L E data pf [] c w Hlive Hc Hne Hpf).
  rewrite (gzip_msg_selected L pf Hmsg Hgz). cbn [when].
  set (w0 := with_trace w (trace w ++ [ReadFrom c])).
  assert (Hc0 : conn (dl w0) = Some c) by exact Hc.
  destruct (handleGzipMessage_decoded L E pf u resp c w0 Hc0 Hz Hr)
    as (w1 & H1 & D & _ & Hlog).
  destruct D as (D1 & _ & _ & _ & D5 & _ & _ & D8).
  assert (Hc1 : conn (dl w1) = Some c) by (rewrite D1; exact Hc0).
  destruct (processMessages_nil L E c w1 Hc1) as [p Hp].
  exists p, w1. split; [unfold bind; rewrite H1; exact Hp|].
  rewrite Hneed in D5. specialize (Hlog Hneed).
  unfold ackFrame in *. subst w0. cbn [dl trace with_trace nWrite] in *.
  rewrite sent_app in D5. rewrite handled_app in D8. simpl in D5, D8.
  rewrite app_nil_r in D5, D8.
  split; [exact D8|].
  destruct (Marshal_PushFrame L _) as [e|wire].
  - rewrite app_nil_r in D5. split; [exact D5|exact Hlog].
  - split; [exact D5|exact Hlog].
Qed.

Lemma C1_one_ack_witness :
  exists p w',
    processMessages Sample.lib (Sample.env Sample.allFail Sample.never None)
      [ReadOk websocket.BinaryMessage [x01]]
      (Sample.world (Some 3%nat) true false) = Returned p w'
    /\ handled (trace w')
       = [("h1", Sample.chat); ("h2", Sample.chat)]
    /\ sent (trace w')
       = [(3%nat, list_byte_of_string "ackXYZ")].
Proof.
  destruct (C1_one_ack_per_needAck_frame
              Sample.lib (Sample.env Sample.allFail Sample.never None)
              [x01]
              {| LogID := 42; PayloadType := "msg"; Payload := [x02];
                 Headers := Sample.gzipHeader |}
              [x04]
              {| NeedAck := true; InternalExt := "XYZ";
                 Messages := [Sample.chat] |}
              3%nat (Sample.world (Some 3%nat) true false)
              eq_refl eq_refl ltac:(discriminate) eq_refl eq_refl eq_refl
              eq_refl eq_refl eq_refl)
    as (p & w' & H1 & H2 & H3 & _).
  exists p, w'. repeat split; assumption.
Defined.

(** ** Decode failures *)

(** C7. A received binary frame whose push-frame decode, gzip
    decompression or response decode fails (with error [e], logged under
    format [fmt]) costs exactly one log line: the loop goes on to the next
    read from a state that differs from the one before the frame only by
    the trace entries of the read and of that log line.  So nothing is
    dispatched and nothing is written for the frame, and with no further
    input the loop is left waiting for the next frame, not ended. *)
Theorem C7_decode_failure_skips_the_frame :
  forall (L : Lib) (E : Env) (data : bytes) (rest : list ReadResult)
         (c : Conn) (w : World) (fmt : string) (e : error),
    isLiving (dl w) = true ->
    conn (dl w) = Some c ->
    data <> [] ->
    (Unmarshal_PushFrame L data = inl e /\ fmt = "解析PushFrame失败: %v\n")
    \/ (exists pf,
          Unmarshal_PushFrame L data = inr pf
          /\ PayloadType pf = "msg"
          /\ HasGzipEncoding L (Headers pf) = true
          /\ ((decompressGzip L (Payload pf) = inl e
               /\ fmt = "GZIP解压失败: %v\n")
              \/ (exists u,
                    decompressGzip L (Payload pf) = inr u
                    /\ Unmarshal_Response L u = inl e
                    /\ fmt = "解析Response失败: %v\n"))) ->
    let skipped :=
      with_trace w (trace w ++ [ReadFrom c; Logged fmt [ArgErr e]]) in
    processMessages L E (ReadOk websocket.BinaryMessage data :: rest) w
      = processMessages L E rest skipped
    /\ processMessages L E [ReadOk websocket.BinaryMessage data] w
      = Returned Waiting skipped.
Proof.
  intros L E data rest c w fmt e Hlive Hc Hne Hfail skipped.
  assert (Hstep : forall tail,
             processMessages L E (ReadOk websocket.BinaryMessage data :: tail) w
             = processMessages L E tail skipped).
  { intro tail. destruct Hfail as [[Hpf Hfmt] | (pf & Hpf & Hmsg & Hgz & Hpayload)].
    - subst fmt. cbn [processMessages]. unfold bind at 1. unfold get.
      rewrite Hlive, Hc. unfold bind at 1. unfold emit at 1.
      destruct data as [|b data]; [congruence|].
      cbn [length Nat.eqb Z.eqb websocket.BinaryMessage negb orb Pos.eqb].
      rewrite Hpf. unfold Printf, bind, emit. cbn [dl trace nGet nDial nWrite nClose nSleep].
      f_equal. subst skipped. trace_eq.
    - rewrite (processMessages_frame L E data pf tail c w Hlive Hc Hne Hpf).
      rewrite (gzip_msg_selected L pf Hmsg Hgz). cbn [when].
      unfold handleGzipMessage.
      destruct Hpayload as [[Hz Hfmt] | (u & Hz & Hr & Hfmt)]; subst fmt.
      + rewrite Hz. unfold Printf, bind, emit, with_trace.
        cbn [dl trace nGet nDial nWrite nClose nSleep].
        f_equal. subst skipped. trace_eq.
      + rewrite Hz, Hr. unfold Printf, bind, emit, with_trace.
        cbn [dl trace nGet nDial nWrite nClose nSleep].
        f_equal. subst skipped. trace_eq. }
  split; [apply Hstep|].
  rewrite Hstep. cbn [processMessages]. unfold bind, get, ret.
  subst skipped. cbn [with_trace dl]. rewrite Hlive, Hc. reflexivity.
Qed.

Lemma C7_decode_failure_witness :
  processMessages Sample.lib (Sample.env Sample.allFail Sample.never None)
    [ReadOk websocket.BinaryMessage [x06]]
    (Sample.world (Some 3%nat) true false)
  = Returned Waiting
      (with_trace (Sample.world (Some 3%nat) true false)
         [ReadFrom 3%nat;
          Logged "GZIP解压失败: %v\n" [ArgErr (OtherError "gzip: invalid header")]]).
Proof.
  refine (proj2 (C7_decode_failure_skips_the_frame
                   Sample.lib (Sample.env Sample.allFail Sample.never None)
                   [x06] [] 3%nat (Sample.world (Some 3%nat) true false)
                   "GZIP解压失败: %v\n" (OtherError "gzip: invalid header")
                   eq_refl eq_refl _ _)).
  - discriminate.
  - right. eexists. split; [reflexivity|]. split; [reflexivity|].
    split; [reflexivity|]. left. split; reflexivity.
Defined.

(** ** The room-closed signal *)

(** C8. A message with method "WebcastControlMessage" whose payload
    decodes to status 3 leaves the liveness flag false after
    [handleSingleMessage]; and when such a message is in the batch of a
    received frame, the loop ends right after that frame: it returns
    normally with the flag false, having read exactly once, whatever
    further reads were available, and without dialling. *)
Theorem C8_room_closed_ends_the_loop :
  forall (L : Lib) (E : Env) (msg : Message) (controlMsg : ControlMessage),
    Method msg = "WebcastControlMessage" ->
    Unmarshal_ControlMessage L (MsgPayload msg) = inr controlMsg ->
    Status controlMsg = 3 ->
    (forall w, exists w',
        handleSingleMessage L msg w = Returned tt w'
        /\ isLiving (dl w') = false)
    /\ (forall (data : bytes) (pf : PushFrame) (u : bytes) (resp : Response)
               (rest : list ReadResult) (c : Conn) (w : World),
          isLiving (dl w) = true ->
          conn (dl w) = Some c ->
          data <> [] ->
          Unmarshal_PushFrame L data = inr pf ->
          PayloadType pf = "msg" ->
          HasGzipEncoding L (Headers pf) = true ->
          decompressGzip L (Payload pf) = inr u ->
          Unmarshal_Response L u = inr resp ->
          In msg (Messages resp) ->
          exists w',
            processMessages L E (ReadOk websocket.BinaryMessage data :: rest) w
            = Returned (Finished tt) w'
            /\ isLiving (dl w') = false
            /\ reads_of (trace w') = (reads_of (trace w) ++ [c])%list
            /\ dials (trace w') = dials (trace w)).
Proof.
  intros L E msg controlMsg Hmethod Hdecode Hstatus.
  assert (Hclosed : roomClosed L msg = true).
  { unfold roomClosed. rewrite Hmethod, Hdecode, Hstatus. reflexivity. }
  split.
  - intro w. destruct (handleSingleMessage_dispatched L msg w) as (w' & H & _ & Hc).
    exists w'. auto.
  - intros data pf u resp rest c w Hlive Hc Hne Hpf Hmsg Hgz Hz Hr Hin.
    rewrite (processMessages_frame L E data pf rest c w Hlive Hc Hne Hpf).
    rewrite (gzip_msg_selected L pf Hmsg Hgz). cbn [when].
    set (w0 := with_trace w (trace w ++ [ReadFrom c])).
    assert (Hc0 : conn (dl w0) = Some c) by exact Hc.
    destruct (handleGzipMessage_decoded L E pf u resp c w0 Hc0 Hz Hr)
      as (w1 & H1 & D & Hflag & _).
    assert (Hdead : isLiving (dl w1) = false).
    { apply Hflag. apply existsb_exists. exists msg. split; assumption. }
    exists w1. split.
    + unfold bind. rewrite H1. apply processMessages_not_living, Hdead.
    + destruct D as (_ & _ & _ & _ & _ & D6 & D7 & _).
      subst w0. cbn [with_trace trace] in D6, D7.
      rewrite reads_of_app in D6. rewrite dials_app in D7. simpl in D6, D7.
      repeat split; [exact Hdead|exact D6|lia].
Qed.

Lemma C8_room_closed_witness :
  exists w',
    processMessages Sample.lib (Sample.env Sample.allFail Sample.never None)
      [ReadOk websocket.BinaryMessage [x05]; ReadOk websocket.BinaryMessage [x01]]
      (Sample.world (Some 3%nat) true false)
    = Returned (Finished tt) w'
    /\ isLiving (dl w') = false
    /\ reads_of (trace w') = [3%nat]
    /\ dials (trace w') = O.
Proof.
  exact (proj2 (C8_room_closed_ends_the_loop
                  Sample.lib (Sample.env Sample.allFail Sample.never None)
                  Sample.roomEnded {| Status := 3 |} eq_refl eq_refl eq_refl)
               [x05]
               {| LogID := 43; PayloadType := "msg"; Payload := [x12];
                  Headers := Sample.gzipHeader |}
               [x14]
               {| NeedAck := false; InternalExt := "";
                  Messages := [Sample.roomEnded; Sample.chat] |}
               [ReadOk websocket.BinaryMessage [x01]]
               3%nat (Sample.world (Some 3%nat) true false)
               eq_refl eq_refl ltac:(discriminate) eq_refl eq_refl eq_refl
               eq_refl eq_refl (or_introl eq_refl)).
Defined.

(** ** Start-up *)


(** C5. A dial that fails before the peer sent any response makes
    [startWebSocket] panic on [resp.StatusCode] instead of returning the
    wrapped error.  (No handle is stored.) *)
Theorem C5_dial_failure_without_response_panics :
  exists w',
    startWebSocket (Sample.env Sample.allFail Sample.never None)
                   (Sample.world None true false)
    = Panicked w'
    /\ conn (dl w') = None
    /\ dials (trace w') = 1%nat.
Proof. eexists. split; [reflexivity|]. split; reflexivity. Qed.

(** C2. A dial attempt refused with close code 1008 does not end the
    reconnect cycle: the error reaches the retry filter wrapped as
    unrecoverable, the filter does not recognise it, and the cycle sleeps
    and dials again; here the second attempt connects. *)
Theorem C2_policy_violation_is_retried :
  exists w',
    reconnect (Sample.env Sample.policyViolationThenOk Sample.never None)
              defaultMaxRetries (Sample.world None true false)
    = Returned true w'
    /\ conn (dl w') = Some 7%nat
    /\ dials (trace w') = 2%nat
    /\ sleeps (trace w') = [100]
    /\ reconnect_RetryIf
         (retry.Unrecoverable (CloseError websocket.ClosePolicyViolation "policy"))
       = true.
Proof.
  eexists. split; [vm_compute; reflexivity|]. repeat split.
Qed.

(** ** Reconnect cycles *)

(** [Close()] on a session without handle only sets the two flags and logs. *)
Lemma Close_nil_handle (E : Env) (w : World) :
  conn (dl w) = None ->
  Close E w
  = Returned tt
      {| dl := set_manualClose true (set_isLiving false (dl w));
         trace := trace w ++ [Logged "连接已关闭或未初始化" []];
         nGet := nGet w; nDial := nDial w; nWrite := nWrite w;
         nClose := nClose w; nSleep := nSleep w |}.
Proof. intro H. unfold Close. run. rewrite H. run. reflexivity. Qed.

(** A sleep of the read-loop goroutine while the session has no handle:
    whether or not [Close()] is called meanwhile, the handle stays nil and
    nothing is dialled. *)
Lemma time_Sleep_nil_handle (E : Env) (ms : Z) (w : World) :
  conn (dl w) = None ->
  exists w',
    time_Sleep E ms w = Returned tt w'
    /\ conn (dl w') = None
    /\ nDial w' = nDial w
    /\ dials (trace w') = dials (trace w)
    /\ sleeps (trace w') = (sleeps (trace w) ++ [ms])%list.
Proof.
  intro H. unfold time_Sleep. run.
  destruct (closeDuringSleep E (nSleep w)); cbn [when].
  - rewrite Close_nil_handle by exact H.
    eexists; split; [reflexivity|].
    cbn [dl trace nDial conn set_manualClose set_isLiving].
    rewrite !dials_app, !sleeps_app. simpl. rewrite app_nil_r.
    repeat split; auto; lia.
  - eexists; split; [reflexivity|]. cbn [dl trace nDial].
    rewrite !dials_app, !sleeps_app. simpl.
    repeat split; auto; lia.
Qed.

(** One dial attempt of a cycle, from two states that have no handle and
    have dialled equally often: the same answer, the same handle stored. *)
Lemma retryable_sim (E : Env) (w w' : World) :
  conn (dl w) = None -> conn (dl w') = None ->
  nDial w = nDial w' ->
  dials (trace w) = dials (trace w') ->
  exists r v v',
    retryable E w = Returned r v
    /\ retryable (quiet E) w' = Returned r v'
    /\ conn (dl v) = conn (dl v')
    /\ nDial v = nDial v'
    /\ dials (trace v) = dials (trace v')
    /\ dials (trace v) = S (dials (trace w))
    /\ match r with
       | None => exists c, conn (dl v) = Some c
       | Some err => conn (dl v) = None /\ reconnect_RetryIf err = true
       end.
Proof.
  intros Hc Hc' Hn Hd. unfold retryable. run. cbn [quiet dialResult].
  rewrite <- Hn.
  destruct (dialResult E (nDial w)) as [c rsp|rsp err]; run.
  - eexists _, _, _. split; [reflexivity|]. split; [reflexivity|].
    cbn [dl trace nDial conn set_conn]. rewrite !dials_app, Hd. simpl.
    repeat split; eauto; lia.
  - destruct err as [code text|msg|f a cause|e|l];
      cbn [websocket.IsCloseError];
      try (eexists _, _, _; split; [reflexivity|]; split; [reflexivity|];
           cbn [dl trace nDial]; rewrite !dials_app, Hd, Hc, Hc'; simpl;
           repeat split; auto; lia).
    destruct (websocket.hasCode code wrappedCodes) eqn:Hw; run.
    + eexists _, _, _; split; [reflexivity|]; split; [reflexivity|].
      cbn [dl trace nDial]. rewrite !dials_app, Hd, Hc, Hc'; simpl.
      repeat split; auto; lia.
    + eexists _, _, _; split; [reflexivity|]; split; [reflexivity|].
      cbn [dl trace nDial]. rewrite !dials_app, Hd, Hc, Hc'; simpl.
      repeat split; auto; try lia.
      unfold reconnect_RetryIf. cbn [websocket.IsCloseError].
      apply negb_true_iff.
      unfold websocket.hasCode, wrappedCodes in *. cbn [existsb] in *.
      repeat (apply orb_false_iff in Hw; destruct Hw as [? Hw]).
      cbn [existsb]. repeat (apply orb_false_iff; split); auto.
Qed.

Lemma OnRetry_effect (n : nat) (err : error) (w : World) :
  exists w',
    reconnect_OnRetry n err w = Returned tt w'
    /\ dl w' = dl w
    /\ nDial w' = nDial w
    /\ dials (trace w') = dials (trace w)
    /\ sleeps (trace w') = sleeps (trace w).
Proof.
  unfold reconnect_OnRetry. run. eexists; split; [reflexivity|].
  cbn [dl trace nDial]. rewrite dials_app, sleeps_app. simpl.
  rewrite app_nil_r. repeat split; lia.
Qed.

(** The whole retry loop, run once with and once without concurrent
    [Close()] calls during its waits: the same result, the same handle,
    the same number of dials.  The loop never panics; it returns nil
    exactly when it has stored a handle. *)
Lemma retry_loop_sim (E : Env) :
  forall (remaining n : nat) (log : list error) (w w' : World),
    conn (dl w) = None -> conn (dl w') = None ->
    nDial w = nDial w' ->
    dials (trace w) = dials (trace w') ->
    exists r v v',
      retry_loop E (retryable E) reconnect_RetryIf reconnect_OnRetry
                 remaining n log w = Returned r v
      /\ retry_loop (quiet E) (retryable (quiet E)) reconnect_RetryIf
                    reconnect_OnRetry remaining n log w' = Returned r v'
      /\ conn (dl v) = conn (dl v')
      /\ dials (trace v) = dials (trace v')
      /\ match r with
         | None => exists c, conn (dl v) = Some c
         | Some _ => conn (dl v) = None
         end.
Proof.
  induction remaining as [|k IH]; intros n log w w' Hc Hc' Hn Hd.
  - cbn [retry_loop]. unfold ret. exists (Some (RetryError log)), w, w'.
    repeat split; auto. congruence.
  - cbn [retry_loop].
    destruct (retryable_sim E w w' Hc Hc' Hn Hd)
      as (r & v & v' & H1 & H2 & Hcv & Hnv & Hdv & _ & Hr).
    rewrite (bind_Returned _ _ _ _ _ H1), (bind_Returned _ _ _ _ _ H2).
    destruct r as [err|].
    + destruct Hr as [Hnil Hretry]. rewrite Hretry. cbn [negb].
      assert (Hnil' : conn (dl v') = None) by congruence.
      destruct (OnRetry_effect n err v) as (u & U1 & U2 & U3 & U4 & _).
      destruct (OnRetry_effect n err v') as (u' & U1' & U2' & U3' & U4' & _).
      rewrite (bind_Returned _ _ _ _ _ U1), (bind_Returned _ _ _ _ _ U1').
      assert (Hu : conn (dl u) = None) by (rewrite U2; exact Hnil).
      assert (Hu' : conn (dl u') = None) by (rewrite U2'; exact Hnil').
      destruct k as [|k'].
      * unfold ret. eexists _, u, u'. repeat split; congruence.
      * destruct (time_Sleep_nil_handle E (retry.BackOffDelay n) u Hu)
          as (s & S1 & S2 & S3 & S4 & _).
        destruct (time_Sleep_nil_handle (quiet E) (retry.BackOffDelay n) u' Hu')
          as (s' & S1' & S2' & S3' & S4' & _).
        rewrite (bind_Returned _ _ _ _ _ S1), (bind_Returned _ _ _ _ _ S1').
        apply IH; congruence.
    + unfold ret. exists None, v, v'. repeat split; auto.
Qed.

(** [reconnect] as a whole: it always returns, it returns true only with
    a handle stored, and concurrent [Close()] calls during the waits of a
    cycle that has passed the entry check change neither its result, nor
    the handle it stores, nor the number of dials it makes. *)
Lemma reconnect_sim (E : Env) (attempts : Z) (w : World) :
  manualClose (dl w) = false ->
  exists b v v',
    reconnect E attempts w = Returned b v
    /\ reconnect (quiet E) attempts w = Returned b v'
    /\ conn (dl v) = conn (dl v')
    /\ dials (trace v) = dials (trace v')
    /\ (if b then exists c, conn (dl v) = Some c else conn (dl v) = None).
Proof.
  intro Hm. unfold reconnect.
  rewrite !(bind_Returned get _ w w (dl w) eq_refl). rewrite Hm.
  assert (Hprep : exists u,
             (match conn (dl w) with
              | Some c =>
                  _ <- conn_WriteControl E c websocket.CloseMessage
                         websocket.CloseGoingAway "reconnecting" ;;
                  _ <- conn_Close E c ;;
                  modify (set_conn None)
              | None => ret tt
              end) w = Returned tt u
             /\ (match conn (dl w) with
                 | Some c =>
                     _ <- conn_WriteControl (quiet E) c websocket.CloseMessage
                            websocket.CloseGoingAway "reconnecting" ;;
                     _ <- conn_Close (quiet E) c ;;
                     modify (set_conn None)
                 | None => ret tt
                 end) w = Returned tt u
             /\ conn (dl u) = None).
  { destruct (conn (dl w)) as [c|] eqn:Hc.
    - run. eexists. repeat split.
    - unfold ret. exists w. repeat split. exact Hc. }
  destruct Hprep as (u & P1 & P2 & Hu).
  rewrite (bind_Returned _ _ _ _ _ P1), (bind_Returned _ _ _ _ _ P2).
  destruct (retry_loop_sim E (uint attempts) O [] u u Hu Hu eq_refl eq_refl)
    as (r & v & v' & R1 & R2 & Hcv & Hdv & Hr).
  unfold retry_Do.
  rewrite (bind_Returned _ _ _ _ _ R1), (bind_Returned _ _ _ _ _ R2).
  destruct r as [err|]; run.
  - eexists _, _, _. split; [reflexivity|]. split; [reflexivity|].
    cbn [dl trace]. rewrite !dials_app, Hdv. simpl. repeat split; auto.
  - eexists _, _, _. split; [reflexivity|]. split; [reflexivity|].
    cbn [dl trace]. rewrite !dials_app, Hdv. simpl. repeat split; auto.
Qed.



Lemma reconnect_manualClose (E : Env) (attempts : Z) (w : World) :
  manualClose (dl w) = true ->
  reconnect E attempts w
  = Returned false
      (with_trace w (trace w ++ [Logged "连接被手动关闭，不进行重连" []])).
Proof. intro H. unfold reconnect. run. rewrite H. run. reflexivity. Qed.

Lemma handleReadError_manualClose (E : Env) (err : error) (w : World) :
  manualClose (dl w) = true ->
  handleReadError E err w
  = Returned false
      (with_trace w (trace w ++ [Logged "连接被手动关闭，不进行重连" []])).
Proof. intro H. unfold handleReadError. run. rewrite H. run. reflexivity. Qed.





(** ** Manual close and reconnect cycles *)

(** C3, counterexample. A cycle entered with manualClose unset; its first
    dial fails; [Close()] is called from another goroutine during the
    first backoff wait (it finds no handle, sets the flags and logs); the
    cycle then dials again, stores the new handle and reports success. *)
Lemma C3_in_flight_cycle_completes_after_close :
  exists w',
    reconnect (Sample.env Sample.failThenOk Sample.duringFirstSleep None)
              defaultMaxRetries (Sample.world None true false)
    = Returned true w'
    /\ manualClose (dl w') = true
    /\ conn (dl w') = Some 7%nat
    /\ trace w'
       = [ Dialed [];
           Logged "第%d次重试连接: %v\n" [ArgInt 1; ArgErr Sample.noResponse];
           Slept 100;
           Logged "连接已关闭或未初始化" [];
           Dialed [];
           Logged "连接成功，未触发重试" [] ].
Proof. eexists. split; [vm_compute; reflexivity|]. repeat split. Qed.

(** C3, as amended. manualClose is consulted on entry and only there.
    With the flag set, [reconnect] and [handleReadError] return false
    after one log line and nothing else (no dial), and the read loop ends.
    A cycle that has passed the entry check is not affected by [Close()]
    being called during its waits: it returns the same result, stores the
    same handle and dials as often as in the run without such calls. *)
Theorem C3_manualClose_is_checked_on_entry_only :
  forall (L : Lib) (E : Env),
    (forall attempts err w,
        manualClose (dl w) = true ->
        let stopped :=
          with_trace w (trace w ++ [Logged "连接被手动关闭，不进行重连" []]) in
        reconnect E attempts w = Returned false stopped
        /\ handleReadError E err w = Returned false stopped
        /\ dials (trace stopped) = dials (trace w)
        /\ conn (dl stopped) = conn (dl w))
    /\ (forall err rest c w,
          manualClose (dl w) = true ->
          isLiving (dl w) = true ->
          conn (dl w) = Some c ->
          processMessages L E (ReadErr err :: rest) w
          = Returned (Finished tt)
              (with_trace w
                 (trace w ++ [ReadFrom c;
                              Logged "读取消息失败:%v\n" [ArgErr err];
                              Logged "连接被手动关闭，不进行重连" []])))
    /\ (forall attempts w,
          manualClose (dl w) = false ->
          exists b v v',
            reconnect E attempts w = Returned b v
            /\ reconnect (quiet E) attempts w = Returned b v'
            /\ conn (dl v) = conn (dl v')
            /\ dials (trace v) = dials (trace v')).
Proof.
  intros L E. split; [|split].
  - intros attempts err w Hm stopped. subst stopped.
    split; [apply reconnect_manualClose, Hm|].
    split; [apply handleReadError_manualClose, Hm|].
    cbn [with_trace trace dl]. rewrite dials_app. simpl. split; [lia|reflexivity].
  - intros err rest c w Hm Hlive Hc.
    cbn [processMessages].
    rewrite (bind_Returned get _ w w (dl w) eq_refl). rewrite Hlive, Hc.
    unfold Printf. rewrite !(bind_Returned (emit _) _ _ _ tt eq_refl).
    erewrite bind_Returned
      by (apply handleReadError_manualClose; exact Hm).
    unfold ret. trace_eq.
  - intros attempts w Hm.
    destruct (reconnect_sim E attempts w Hm) as (b & v & v' & H1 & H2 & H3 & H4 & _).
    exists b, v, v'. auto.
Qed.

Lemma C3_entry_check_witness :
  reconnect (Sample.env Sample.failThenOk Sample.never None)
            defaultMaxRetries (Sample.world None false true)
  = Returned false
      (with_trace (Sample.world None false true)
         [Logged "连接被手动关闭，不进行重连" []]).
Proof.
  exact (proj1 (proj1 (C3_manualClose_is_checked_on_entry_only
                         Sample.lib
                         (Sample.env Sample.failThenOk Sample.never None))
                      defaultMaxRetries Sample.noResponse
                      (Sample.world None false true) eq_refl)).
Defined.

(** ** Start2: which errors reach the caller *)







(** ** Further properties of the reconnect policy and of start-up *)

(** Every error that the retried function of [reconnect] returns passes
    the retry filter: close errors with the codes 1008 and 1007 arrive
    wrapped as unrecoverable, and the filter only recognises bare close
    errors. *)
Theorem retry_filter_accepts_every_dial_error :
  forall (E : Env) (w v : World) (err : error),
    retryable E w = Returned (Some err) v ->
    reconnect_RetryIf err = true.
Proof.
  intros E w v err. unfold retryable. run.
  destruct (dialResult E (nDial w)) as [c rsp|rsp e]; run; [discriminate|].
  destruct e as [code text|msg|f a cause|e'|l]; cbn [websocket.IsCloseError];
    try (intro H; inversion H; subst; reflexivity).
  destruct (websocket.hasCode code wrappedCodes) eqn:Hw; run;
    intro H; inversion H; subst; [reflexivity|].
  unfold reconnect_RetryIf. cbn [websocket.IsCloseError].
  apply negb_true_iff.
  unfold websocket.hasCode, wrappedCodes in *. cbn [existsb] in *.
  repeat (apply orb_false_iff in Hw; destruct Hw as [? Hw]).
  repeat (apply orb_false_iff; split); auto.
Qed.

Lemma retry_filter_witness :
  reconnect_RetryIf
    (unrecoverableError (CloseError websocket.CloseInvalidFramePayloadData ""))
  = true.
Proof.
  apply (retry_filter_accepts_every_dial_error
           (Sample.env
              (fun _ => DialErr None
                          (CloseError websocket.CloseInvalidFramePayloadData ""))
              Sample.never None)
           (Sample.world None true false)
           {| dl := Sample.session None true false; trace := [Dialed []];
              nGet := O; nDial := 1; nWrite := O; nClose := O; nSleep := O |}).
  reflexivity.
Defined.











(** ** The subscriber registry *)

Lemma removeHandler_absent (id : string) (hs : list EventHandler) :
  (forall h, In h hs -> ID h <> id) ->
  removeHandler id hs = hs.
Proof.
  induction hs as [|h hs IH]; intro Habs; [reflexivity|].
  cbn [removeHandler].
  destruct (String.eqb_spec (ID h) id) as [Heq|Hne].
  - exfalso. apply (Habs h); [left; reflexivity|exact Heq].
  - rewrite IH; [reflexivity|]. intros x Hx. apply Habs. right. exact Hx.
Qed.

Lemma removeHandler_first (id : string) (pre post : list EventHandler)
      (h : EventHandler) :
  ID h = id ->
  (forall x, In x pre -> ID x <> id) ->
  removeHandler id (pre ++ h :: post) = (pre ++ post)%list.
Proof.
  intros Hid. induction pre as [|p pre IH]; intro Habs.
  - cbn [app removeHandler]. rewrite Hid, String.eqb_refl. reflexivity.
  - cbn [app removeHandler].
    destruct (String.eqb_spec (ID p) id) as [Heq|Hne].
    + exfalso. apply (Habs p); [left; reflexivity|exact Heq].
    + rewrite IH; [reflexivity|]. intros x Hx. apply Habs. right. exact Hx.
Qed.



(** [Unsubscribe] with an identifier that no handler carries changes
    nothing at all. *)
Theorem Unsubscribe_unknown_id_is_a_no_op :
  forall (id : string) (w : World),
    (forall h, In h (eventHandlers (dl w)) -> ID h <> id) ->
    Unsubscribe id w = Returned tt w.
Proof.
  intros id [d t g n k c s] Habs. cbn [dl eventHandlers] in Habs.
  unfold Unsubscribe, modify. cbn [dl trace nGet nDial nWrite nClose nSleep].
  rewrite (removeHandler_absent id (eventHandlers d) Habs).
  destruct d; reflexivity.
Qed.

Lemma Unsubscribe_unknown_id_witness :
  Unsubscribe "h9" (Sample.world None true false)
  = Returned tt (Sample.world None true false).
Proof.
  apply (Unsubscribe_unknown_id_is_a_no_op "h9" (Sample.world None true false)).
  intros h [H|[H|[]]]; subst h; discriminate.
Defined.

(** [Unsubscribe] removes the first handler that carries the identifier
    and nothing else: the handlers before and after it keep their order,
    later handlers with the same identifier stay, and no other field of
    the session and no effect is involved. *)
Theorem Unsubscribe_removes_the_first_match_only :
  forall (id : string) (pre post : list EventHandler) (h : EventHandler)
         (w : World),
    eventHandlers (dl w) = (pre ++ h :: post)%list ->
    ID h = id ->
    (forall x, In x pre -> ID x <> id) ->
    Unsubscribe id w
    = Returned tt
        {| dl := set_eventHandlers (pre ++ post) (dl w); trace := trace w;
           nGet := nGet w; nDial := nDial w; nWrite := nWrite w;
           nClose := nClose w; nSleep := nSleep w |}.
Proof.
  intros id pre post h w Hhs Hid Habs.
  unfold Unsubscribe, modify.
  rewrite Hhs, (removeHandler_first id pre post h Hid Habs). reflexivity.
Qed.

Lemma Unsubscribe_first_match_witness :
  Unsubscribe "h1" (Sample.world None true false)
  = Returned tt
      {| dl := set_eventHandlers [ {| ID := "h2" |} ]
                 (Sample.session None true false);
         trace := []; nGet := O; nDial := O; nWrite := O; nClose := O;
         nSleep := O |}.
Proof.
  apply (Unsubscribe_removes_the_first_match_only
           "h1" [] [ {| ID := "h2" |} ] {| ID := "h1" |}
           (Sample.world None true false) eq_refl eq_refl).
  intros x [].
Defined.


(** Subscribing under an identifier that is not in use and unsubscribing
    it again gives back the session as it was. *)
Theorem Subscribe_then_Unsubscribe_restores_the_session :
  forall (id : string) (w : World),
    (forall h, In h (eventHandlers (dl w)) -> ID h <> id) ->
    (Subscribe id ;;; Unsubscribe id) w = Returned tt w.
Proof.
  intros id [d t g n k c s] Habs. cbn [dl eventHandlers] in Habs.
  unfold Subscribe, Unsubscribe. run.
  cbn [eventHandlers set_eventHandlers].
  rewrite (removeHandler_first id (eventHandlers d) [] {| ID := id |}
             eq_refl Habs).
  rewrite app_nil_r. destruct d; reflexivity.
Qed.

Lemma Subscribe_then_Unsubscribe_witness :
  (Subscribe "h3" ;;; Unsubscribe "h3") (Sample.world None true false)
  = Returned tt (Sample.world None true false).
Proof.
  apply (Subscribe_then_Unsubscribe_restores_the_session
           "h3" (Sample.world None true false)).
  intros h [H|[H|[]]]; subst h; discriminate.
Defined.




(** ** Frames in the read loop *)

(** A frame that is not binary, or is empty, or decodes to a push frame
    that is not a gzip-flagged "msg" frame, is ignored: nothing is logged,
    written or dispatched, and the loop goes on to the next read. *)
Theorem other_frames_are_ignored :
  forall (L : Lib) (E : Env) (messageType : Z) (data : bytes)
         (rest : list ReadResult) (c : Conn) (w : World),
    isLiving (dl w) = true ->
    conn (dl w) = Some c ->
    messageType <> websocket.BinaryMessage
    \/ data = []
    \/ (exists pf,
          Unmarshal_PushFrame L data = inr pf
          /\ (PayloadType pf <> "msg" \/ HasGzipEncoding L (Headers pf) = false)) ->
    processMessages L E (ReadOk messageType data :: rest) w
    = processMessages L E rest (with_trace w (trace w ++ [ReadFrom c])).
Proof.
  intros L E messageType data rest c w Hlive Hc Hcase.
  cbn [processMessages].
  rewrite (bind_Returned get _ w w (dl w) eq_refl). rewrite Hlive, Hc.
  rewrite (bind_Returned (emit _) _ _ _ tt eq_refl).
  fold (with_trace w (trace w ++ [ReadFrom c])).
  destruct (negb (Z.eqb messageType websocket.BinaryMessage)
            || Nat.eqb (length data) 0) eqn:Hskip; [reflexivity|].
  apply orb_false_iff in Hskip. destruct Hskip as [Hmt Hlen].
  apply negb_false_iff, Z.eqb_eq in Hmt.
  destruct Hcase as [Hn|[He|(pf & Hpf & Hsel)]].
  - contradiction.
  - subst data. discriminate.
  - rewrite Hpf.
    assert (Hno : String.eqb (PayloadType pf) "msg"
                  && HasGzipEncoding L (Headers pf) = false).
    { destruct Hsel as [Hp|Hg].
      - apply andb_false_iff. left. apply String.eqb_neq. exact Hp.
      - apply andb_false_iff. right. exact Hg. }
    rewrite Hno. cbn [when].
    rewrite (bind_Returned (ret tt) _ _ _ tt eq_refl). reflexivity.
Qed.

Lemma other_frames_witness :
  processMessages Sample.lib (Sample.env Sample.allFail Sample.never None)
    [ReadOk websocket.TextMessage [x01]] (Sample.world (Some 3%nat) true false)
  = processMessages Sample.lib (Sample.env Sample.allFail Sample.never None)
      [] (with_trace (Sample.world (Some 3%nat) true false) [ReadFrom 3%nat]).
Proof.
  apply (other_frames_are_ignored
           Sample.lib (Sample.env Sample.allFail Sample.never None)
           websocket.TextMessage [x01] [] 3%nat
           (Sample.world (Some 3%nat) true false) eq_refl eq_refl).
  left. discriminate.
Defined.

(** The ACK goes out before the batch is handed to the handlers: for a
    decoded frame that asks for an ACK, the write of the marshalled ACK
    frame is the first effect, and every handler call of the batch comes
    after it; nothing else is written. *)
Theorem ack_is_written_before_dispatch :
  forall (L : Lib) (E : Env) (pf : PushFrame) (u : bytes) (resp : Response)
         (c : Conn) (wire : bytes) (w : World),
    conn (dl w) = Some c ->
    decompressGzip L (Payload pf) = inr u ->
    Unmarshal_Response L u = inr resp ->
    NeedAck resp = true ->
    Marshal_PushFrame L (ackFrame (LogID pf) (InternalExt resp)) = inr wire ->
    exists w' more,
      handleGzipMessage L E pf w = Returned tt w'
      /\ trace w'
         = (trace w ++ WroteMessage c websocket.BinaryMessage wire :: more)%list
      /\ sent more = []
      /\ handled more = dispatches (eventHandlers (dl w)) (Messages resp).
Proof.
  intros L E pf u resp c wire w Hc Hz Hr Hneed Hm.
  unfold handleGzipMessage. rewrite Hz, Hr, Hneed. cbn [when].
  assert (Hack : exists w1 logs,
             sendAck L E (LogID pf) (InternalExt resp) w = Returned tt w1
             /\ dl w1 = dl w
             /\ trace w1
                = (trace w ++ WroteMessage c websocket.BinaryMessage wire :: logs)%list
             /\ sent logs = [] /\ handled logs = []).
  { unfold sendAck. rewrite Hm. run. rewrite Hc.
    destruct (writeResult E (nWrite w)); run; eexists _, _;
      (split; [reflexivity|]); cbn [dl trace];
      (split; [reflexivity|]); rewrite <- ?app_assoc;
      (split; [reflexivity|]); split; reflexivity. }
  destruct Hack as (w1 & logs & H1 & Hdl & Ht1 & Hs1 & Hh1).
  destruct (forEach_messages_dispatched L (Messages resp) w1)
    as (w2 & H2 & D2 & _).
  destruct (forEach_messages_extends L _ _ _ H2) as [more Hmore].
  destruct D2 as (_ & _ & _ & _ & D5 & _ & _ & D8).
  rewrite Hmore, sent_app, app_nil_r in D5.
  rewrite Hmore, handled_app, Hdl in D8.
  exists w2, (logs ++ more)%list.
  split; [rewrite (bind_Returned _ _ _ _ _ H1); exact H2|].
  split; [rewrite Hmore, Ht1, <- app_assoc; reflexivity|].
  rewrite sent_app, handled_app, Hs1, Hh1. cbn [app].
  split.
  - apply (app_inv_head (sent (trace w1))). rewrite app_nil_r. exact D5.
  - apply (app_inv_head (handled (trace w1))). exact D8.
Qed.

Lemma ack_before_dispatch_witness :
  exists w' more,
    handleGzipMessage Sample.lib (Sample.env Sample.allFail Sample.never None)
      {| LogID := 42; PayloadType := "msg"; Payload := [x02];
         Headers := Sample.gzipHeader |}
      (Sample.world (Some 3%nat) true false) = Returned tt w'
    /\ trace w'
       = (WroteMessage 3%nat websocket.BinaryMessage (list_byte_of_string "ackXYZ")
          :: more)%list
    /\ sent more = []
    /\ handled more = [("h1", Sample.chat); ("h2", Sample.chat)].
Proof.
  exact (ack_is_written_before_dispatch
           Sample.lib (Sample.env Sample.allFail Sample.never None)
           {| LogID := 42; PayloadType := "msg"; Payload := [x02];
              Headers := Sample.gzipHeader |}
           [x04]
           {| NeedAck := true; InternalExt := "XYZ"; Messages := [Sample.chat] |}
           3%nat (list_byte_of_string "ackXYZ")
           (Sample.world (Some 3%nat) true false)
           eq_refl eq_refl eq_refl eq_refl eq_refl).
Defined.

(** A decoded batch that does not ask for an ACK is dispatched without
    any write, with or without a handle. *)
Theorem no_ack_unless_asked_for :
  forall (L : Lib) (E : Env) (pf : PushFrame) (u : bytes) (resp : Response)
         (w : World),
    decompressGzip L (Payload pf) = inr u ->
    Unmarshal_Response L u = inr resp ->
    NeedAck resp = false ->
    exists w',
      handleGzipMessage L E pf w = Returned tt w'
      /\ sent (trace w') = sent (trace w)
      /\ handled (trace w')
         = (handled (trace w)
            ++ dispatches (eventHandlers (dl w)) (Messages resp))%list.
Proof.
  intros L E pf u resp w Hz Hr Hneed.
  unfold handleGzipMessage. rewrite Hz, Hr, Hneed. cbn [when].
  rewrite (bind_Returned (ret tt) _ w w tt eq_refl).
  destruct (forEach_messages_dispatched L (Messages resp) w)
    as (w' & H & D & _).
  destruct D as (_ & _ & _ & _ & D5 & _ & _ & D8).
  exists w'. rewrite app_nil_r in D5. auto.
Qed.

Lemma no_ack_witness :
  exists w',
    handleGzipMessage Sample.lib (Sample.env Sample.allFail Sample.never None)
      {| LogID := 43; PayloadType := "msg"; Payload := [x12];
         Headers := Sample.gzipHeader |}
      (Sample.world None true false) = Returned tt w'
    /\ sent (trace w') = []
    /\ handled (trace w')
       = [("h1", Sample.roomEnded); ("h2", Sample.roomEnded);
          ("h1", Sample.chat); ("h2", Sample.chat)].
Proof.
  exact (no_ack_unless_asked_for
           Sample.lib (Sample.env Sample.allFail Sample.never None)
           {| LogID := 43; PayloadType := "msg"; Payload := [x12];
              Headers := Sample.gzipHeader |}
           [x14]
           {| NeedAck := false; InternalExt := "";
              Messages := [Sample.roomEnded; Sample.chat] |}
           (Sample.world None true false) eq_refl eq_refl eq_refl).
Defined.


(** ** Reconnect cycles: what they do to the transport *)


















(** ** Read errors that start a cycle *)

(** For a close error with a code other than 1000, and manualClose
    unset, [handleReadError] is a reconnect cycle after some log lines;
    for code 1013 a wait of 5000 ms comes first. *)
Lemma handleReadError_close_code (E : Env) (code : Z) (text : string)
      (w : World) :
  manualClose (dl w) = false ->
  code <> websocket.CloseNormalClosure ->
  exists logs,
    forallb cycle_event logs = true
    /\ dials logs = O /\ sleeps logs = []
    /\ handleReadError E (CloseError code text) w
       = (if Z.eqb code websocket.CloseTryAgainLater
          then time_Sleep E 5000 ;;; reconnect E defaultMaxRetries
          else reconnect E defaultMaxRetries)
           (with_trace w (trace w ++ logs)).
Proof.
  intros Hm Hcode. unfold handleReadError. run. rewrite Hm.
  cbn [websocket.IsUnexpectedCloseError websocket.hasCode existsb].
  apply Z.eqb_neq in Hcode. rewrite Hcode. cbn [orb negb errors_As_CloseError].
  destruct (Z.eqb code websocket.CloseAbnormalClosure) eqn:H6.
  - apply Z.eqb_eq in H6. subst code.
    change (websocket.CloseAbnormalClosure =? websocket.CloseTryAgainLater)
      with false. cbv iota. run.
    eexists [_; _; _]. split; [|split; [|split]]; cycle 3.
    + rewrite <- !app_assoc. reflexivity.
    + reflexivity.
    + reflexivity.
    + reflexivity.
  - destruct (Z.eqb code websocket.CloseTryAgainLater) eqn:H13.
    + run. eexists [_; _; _]. split; [|split; [|split]]; cycle 3.
      * rewrite <- !app_assoc. reflexivity.
      * reflexivity.
      * reflexivity.
      * reflexivity.
    + run. eexists [_; _; _]. split; [|split; [|split]]; cycle 3.
      * rewrite <- !app_assoc. reflexivity.
      * reflexivity.
      * reflexivity.
      * reflexivity.
Qed.

(** What [Close()] does, for every state and every answer of the
    transport. *)
Lemma Close_effect (E : Env) (w : World) :
  exists w1 more,
    Close E w = Returned tt w1
    /\ trace w1 = (trace w ++ more)%list
    /\ isLiving (dl w1) = false
    /\ manualClose (dl w1) = true
    /\ conn (dl w1) = None
    /\ eventHandlers (dl w1) = eventHandlers (dl w)
    /\ dials more = O
    /\ reads_of more = []
    /\ sent more = []
    /\ closes more = match conn (dl w) with Some c => [c] | None => [] end
    /\ controls more
       = match conn (dl w) with
         | Some c => [(c, websocket.CloseNormalClosure, "closing connection")]
         | None => []
         end.
Proof.
  unfold Close. run. destruct (conn (dl w)) as [c|] eqn:Hc; run.
  - destruct (writeResult E (nWrite w)); run;
      destruct (closeResult E (nClose w)); run;
      destruct (closeTimedOut E (nClose w)); run;
      eexists _, _; (split; [reflexivity|]); cbn [dl trace];
      (split; [rewrite <- !app_assoc; reflexivity|]); repeat split.
  - eexists _, _. split; [reflexivity|].
    cbn [dl trace conn isLiving manualClose set_manualClose set_isLiving].
    split; [reflexivity|]. repeat split. exact Hc.
Qed.



(** When [Close()] is called during the 5000 ms wait that follows a close
    with code 1013, the cycle is not started: [reconnect] finds
    manualClose set, nothing is dialled, and [handleReadError] returns
    false with the handle cleared. *)
Theorem close_during_the_try_again_wait_prevents_the_cycle :
  forall (E : Env) (text : string) (w : World),
    manualClose (dl w) = false ->
    closeDuringSleep E (nSleep w) = true ->
    exists w',
      handleReadError E (CloseError websocket.CloseTryAgainLater text) w
      = Returned false w'
      /\ dials (trace w') = dials (trace w)
      /\ conn (dl w') = None
      /\ manualClose (dl w') = true
      /\ isLiving (dl w') = false
      /\ (exists later,
            sleeps (trace w') = (sleeps (trace w) ++ 5000 :: later)%list).
Proof.
  intros E text w Hm Hclose.
  destruct (handleReadError_close_code E websocket.CloseTryAgainLater text w Hm
              ltac:(discriminate)) as (logs & _ & Ld & Ls & Heq).
  rewrite Heq. clear Heq. cbn [Z.eqb Pos.eqb websocket.CloseTryAgainLater].
  set (w0 := with_trace w (trace w ++ logs)).
  set (w1 := {| dl := dl w0; trace := trace w0 ++ [Slept 5000];
                nGet := nGet w0; nDial := nDial w0; nWrite := nWrite w0;
                nClose := nClose w0; nSleep := S (nSleep w0) |}).
  destruct (Close_effect E w1) as (w2 & more & C & Ct & Cl & Cm & Cc & _ & Cd & _).
  assert (Hs : time_Sleep E 5000 w0 = Returned tt w2).
  { unfold time_Sleep. run. subst w0. cbn [with_trace nSleep].
    rewrite Hclose. cbn [when]. exact C. }
  rewrite (bind_Returned _ _ _ _ _ Hs).
  rewrite (reconnect_manualClose E defaultMaxRetries w2 Cm).
  eexists. split; [reflexivity|]. cbn [with_trace dl trace].
  rewrite Ct. subst w1 w0. cbn [with_trace trace].
  rewrite !dials_app, !sleeps_app, Ld, Ls, Cd. simpl. rewrite app_nil_r.
  split; [lia|]. split; [exact Cc|]. split; [exact Cm|]. split; [exact Cl|].
  exists (sleeps more). rewrite app_nil_r, <- app_assoc. reflexivity.
Qed.

Lemma close_during_wait_witness :
  exists w',
    handleReadError (Sample.env Sample.failThenOk Sample.duringFirstSleep None)
      (CloseError websocket.CloseTryAgainLater "later")
      (Sample.world (Some 3%nat) true false)
    = Returned false w'
    /\ dials (trace w') = O
    /\ conn (dl w') = None
    /\ manualClose (dl w') = true
    /\ isLiving (dl w') = false.
Proof.
  destruct (close_during_the_try_again_wait_prevents_the_cycle
              (Sample.env Sample.failThenOk Sample.duringFirstSleep None)
              "later" (Sample.world (Some 3%nat) true false) eq_refl eq_refl)
    as (w' & H1 & H2 & H3 & H4 & H5 & _).
  exists w'. repeat split; assumption.
Defined.




(** ** After Close, and after cleanup *)

(** A session on which [Close()] has returned is inert: the read loop
    ends at once without reading (and without touching the nil handle),
    [readMessage] reports "连接已关闭" without reading, [handleReadError]
    returns false after one log line, and [sendAck] writes nothing. *)
Theorem closed_session_is_inert :
  forall (L : Lib) (E : Env) (w : World),
    exists w1,
      Close E w = Returned tt w1
      /\ (forall reads,
            processMessages L E reads w1 = Returned (Finished tt) w1)
      /\ (forall r,
            readMessage r w1 = Returned (ReadErr (OtherError "连接已关闭")) w1)
      /\ (forall err,
            handleReadError E err w1
            = Returned false
                (with_trace w1
                   (trace w1 ++ [Logged "连接被手动关闭，不进行重连" []])))
      /\ (forall logID internalExt,
            exists w2,
              sendAck L E logID internalExt w1 = Returned tt w2
              /\ dl w2 = dl w1
              /\ sent (trace w2) = sent (trace w1)).
Proof.
  intros L E w.
  destruct (Close_effect E w) as (w1 & more & C & _ & Cl & Cm & Cc & _).
  exists w1. split; [exact C|]. split; [|split; [|split]].
  - intro reads. apply processMessages_not_living, Cl.
  - intro r. unfold readMessage. run. rewrite Cc. reflexivity.
  - intro err. apply handleReadError_manualClose, Cm.
  - intros logID internalExt. unfold sendAck.
    destruct (Marshal_PushFrame L (ackFrame logID internalExt)); run.
    + eexists. split; [reflexivity|]. cbn [dl trace].
      rewrite sent_app. simpl. rewrite app_nil_r. split; reflexivity.
    + rewrite Cc. exists w1. repeat split.
Qed.

(** [cleanup] closes the stored handle but leaves it stored, so a
    [Close()] that follows finds it and closes it a second time. *)
Theorem cleanup_leaves_the_closed_handle_stored :
  forall (E : Env) (w : World) (c : Conn),
    conn (dl w) = Some c ->
    exists w1 w2,
      cleanup E w = Returned tt w1
      /\ dl w1 = dl w
      /\ closes (trace w1) = (closes (trace w) ++ [c])%list
      /\ Close E w1 = Returned tt w2
      /\ conn (dl w2) = None
      /\ closes (trace w2) = (closes (trace w) ++ [c; c])%list.
Proof.
  intros E w c Hc.
  assert (H1 : exists w1,
             cleanup E w = Returned tt w1 /\ dl w1 = dl w
             /\ trace w1 = (trace w ++ [ConnClosed c])%list).
  { unfold cleanup. run. rewrite Hc. run. eexists. repeat split. }
  destruct H1 as (w1 & H1 & Hdl & Ht).
  destruct (Close_effect E w1)
    as (w2 & more & C & Ct & _ & _ & Cc & _ & _ & _ & _ & Ccl & _).
  exists w1, w2. rewrite Hdl, Hc in Ccl.
  split; [exact H1|]. split; [exact Hdl|].
  split; [rewrite Ht, closes_app; reflexivity|].
  split; [exact C|]. split; [exact Cc|].
  rewrite Ct, Ht, !closes_app, Ccl. simpl. rewrite <- app_assoc. reflexivity.
Qed.

Lemma cleanup_then_Close_witness :
  exists w1 w2,
    cleanup (Sample.env Sample.allFail Sample.never None)
            (Sample.world (Some 3%nat) false false) = Returned tt w1
    /\ dl w1 = dl (Sample.world (Some 3%nat) false false)
    /\ closes (trace w1) = [3%nat]
    /\ Close (Sample.env Sample.allFail Sample.never None) w1 = Returned tt w2
    /\ conn (dl w2) = None
    /\ closes (trace w2) = [3%nat; 3%nat].
Proof.
  exact (cleanup_leaves_the_closed_handle_stored
           (Sample.env Sample.allFail Sample.never None)
           (Sample.world (Some 3%nat) false false) 3%nat eq_refl).
Defined.



(** ** Discovery *)









Lemma header_Get_after_initialize (ua cookie : string)
      (h : list (string * string)) :
  header_Get "Cookie" (header_Set "Cookie" cookie (header_Set "User-Agent" ua h))
  = Some cookie
  /\ header_Get "User-Agent"
       (header_Set "Cookie" cookie (header_Set "User-Agent" ua h))
     = Some ua.
Proof. split; reflexivity. Qed.






(** ** makeURL: the browser part *)

Lemma startsWith_spec (sep : string) :
  forall s rest, startsWith sep s = Some rest <-> s = (sep ++ rest)%string.
Proof.
  induction sep as [|a sep IH]; intros s rest.
  - cbn. split; [intro H; inversion H; reflexivity|intro H; subst; reflexivity].
  - destruct s as [|b s]; cbn [startsWith append].
    + split; discriminate.
    + destruct (Ascii.eqb_spec a b) as [Heq|Hne].
      * subst b. rewrite IH. split; [intro H; subst; reflexivity|].
        intro H. inversion H. reflexivity.
      * split; [discriminate|]. intro H. inversion H. subst. contradiction.
Qed.

Lemma afterFirst_found (sep : string) :
  forall s rest,
    afterFirst sep s = Some rest ->
    exists pre, s = (pre ++ sep ++ rest)%string.
Proof.
  induction s as [|c s IH]; intros rest H; cbn [afterFirst] in H.
  - destruct (startsWith sep "") as [r|] eqn:Hs; [|discriminate].
    inversion H; subst. apply startsWith_spec in Hs. exists "". exact Hs.
  - destruct (startsWith sep (String c s)) as [r|] eqn:Hs.
    + inversion H; subst. apply startsWith_spec in Hs. exists "". exact Hs.
    + destruct (IH rest H) as [pre Hpre]. exists (String c pre).
      cbn [append]. rewrite Hpre. reflexivity.
Qed.

Lemma afterFirst_missing (sep : string) :
  forall s,
    afterFirst sep s = None ->
    forall pre post, s <> (pre ++ sep ++ post)%string.
Proof.
  induction s as [|c s IH]; intros H pre post Heq; cbn [afterFirst] in H.
  - destruct (startsWith sep "") as [r|] eqn:Hs; [discriminate|].
    destruct pre; [|discriminate]. cbn [append] in Heq.
    apply startsWith_spec in Heq. congruence.
  - destruct (startsWith sep (String c s)) as [r|] eqn:Hs; [discriminate|].
    destruct pre as [|p pre].
    + cbn [append] in Heq. apply startsWith_spec in Heq. congruence.
    + cbn [append] in Heq. inversion Heq; subst.
      exact (IH H pre post eq_refl).
Qed.

Lemma escapeSpaces_no_space (s : string) :
  forall i, String.get i (escapeSpaces s) <> Some " "%char.
Proof.
  induction s as [|c s IH]; intro i; cbn [escapeSpaces].
  - destruct i; discriminate.
  - destruct (Ascii.eqb_spec c " "%char) as [Heq|Hne].
    + destruct i as [|[|[|i]]]; cbn; try discriminate. apply IH.
    + destruct i as [|i]; cbn; [congruence|apply IH].
Qed.

(** The browser part of the URL exists exactly when the user agent
    contains "Mozilla"; without it [makeURL] indexes past the end of the
    split.  When it exists it is the text after the first "Mozilla" with
    every space replaced by "%20", and so contains no space. *)
Theorem makeURL_browser_needs_Mozilla :
  forall (ua : string),
    (makeURL_browser ua = None <->
     forall pre post, ua <> (pre ++ "Mozilla" ++ post)%string)
    /\ (forall b, makeURL_browser ua = Some b ->
          (exists pre info,
              ua = (pre ++ "Mozilla" ++ info)%string /\ b = escapeSpaces info)
          /\ forall i, String.get i b <> Some " "%char)
    /\ (forall rest,
          makeURL_browser ("Mozilla" ++ rest) = Some (escapeSpaces rest)).
Proof.
  intro ua. unfold makeURL_browser. split; [|split].
  - destruct (afterFirst "Mozilla" ua) as [info|] eqn:H.
    + split; [discriminate|]. intro Habs.
      destruct (afterFirst_found _ _ _ H) as [pre Hpre].
      exfalso. exact (Habs pre info Hpre).
    + split; [|reflexivity]. intros _. apply afterFirst_missing. exact H.
  - intros b Hb. destruct (afterFirst "Mozilla" ua) as [info|] eqn:H;
      [|discriminate].
    inversion Hb; subst. split; [|apply escapeSpaces_no_space].
    destruct (afterFirst_found _ _ _ H) as [pre Hpre]. eauto.
  - intro rest. reflexivity.
Qed.

Lemma makeURL_browser_witness :
  makeURL_browser "Mozilla/5.0 (Windows NT 10.0)"
  = Some "/5.0%20(Windows%20NT%2010.0)"
  /\ makeURL_browser "curl/8.0" = None.
Proof.
  split.
  - exact (proj2 (proj2 (makeURL_browser_needs_Mozilla "")) "/5.0 (Windows NT 10.0)").
  - apply (proj1 (makeURL_browser_needs_Mozilla "curl/8.0")).
    apply afterFirst_missing. reflexivity.
Defined.
